(** * Smart layout selector: content analysis, scoring and ranking

    A shallow embedding of [smart_layout_selector.py] (class
    [SmartLayoutSelector]) and the properties of its content analyser,
    scoring function, ranker and placeholder summary.

    Conventions of the embedding.
    - A Python [str] is a [string]; a character is read as a code point
      below 256 (Latin-1).  Text outside that range is not represented.
    - JSON-like Python values are the type [pyval]; a [dict] is an
      association list in insertion order, because the source iterates
      [items()] and [values()] in that order.  Floats are not represented.
    - A layout descriptor is a record of optional fields: a field that is
      [None] stands for a key missing from the layout's dict, and
      [dict.get(k, d)] becomes [default d].
    - Where an operation can raise, the function of the embedding gives
      the value of a run that returns, and a second function gives the
      exception of a run that does not ([Py.str_error] beside [Py.str]).
    - Scores are Python floats built from [0.0] by adding [3.0], [2.0],
      [1.0] or subtracting [1.0]; every intermediate value is a small
      integer, which binary64 represents exactly, so a score is a [Z]. *)

From Stdlib Require Import ZArith String Ascii List Bool Lia.
From Stdlib Require Import Sorting.Sorted DecimalString.
From stdpp Require Import base gmap strings list fin_maps.

Set Warnings "-register-all".
#[local] Arguments String.append _ _ : simpl nomatch.
Local Open Scope string_scope.
Local Open Scope list_scope.

(** ** Python built-ins used by the selector *)

Module Py.

(** A call either returns a value or raises. *)
Inductive error : Type :=
| ConfigurationError
| NotFound (layout_id : string)
| InvalidArgument
| ValueError
| RecursionError.

Inductive outcome (A : Type) : Type :=
| Returns (a : A)
| Raises (e : error).
Arguments Returns {A} a.
Arguments Raises {A} e.

Definition code (c : ascii) : nat := nat_of_ascii c.

(** [str.lower] on code points below 256: A-Z and the accented capitals
    0xC0-0xDE (without the multiplication sign 0xD7) move up by 32. *)
Definition is_upper (c : ascii) : bool :=
  let n := code c in
  ((65 <=? n) && (n <=? 90))%nat
  || ((192 <=? n) && (n <=? 222) && negb (n =? 215))%nat.

Definition lower_char (c : ascii) : ascii :=
  if is_upper c then ascii_of_nat (code c + 32) else c.

Fixpoint lower (s : string) : string :=
  match s with
  | EmptyString => EmptyString
  | String c r => String (lower_char c) (lower r)
  end.

(** [needle in hay] for two strings. *)
Fixpoint contains (needle hay : string) : bool :=
  String.prefix needle hay
  || match hay with
     | EmptyString => false
     | String _ r => contains needle r
     end.

(** [any(k in text for k in keywords)]. *)
Definition any_in (keywords : list string) (text : string) : bool :=
  existsb (fun k => contains k text) keywords.

(** [str.isspace] on code points below 256. *)
Definition is_space (c : ascii) : bool :=
  let n := code c in
  (((9 <=? n) && (n <=? 13)) || ((28 <=? n) && (n <=? 32))
   || (n =? 133) || (n =? 160))%nat.

Definition flush (cur : string) (words : list string) : list string :=
  match cur with
  | EmptyString => words
  | _ => cur :: words
  end.

(** [s.split()]: maximal runs of non-space characters. *)
Fixpoint split_ws (cur s : string) : list string :=
  match s with
  | EmptyString => flush cur []
  | String c r =>
      if is_space c then flush cur (split_ws EmptyString r)
      else split_ws (cur +:+ String c EmptyString) r
  end.

Definition split (s : string) : list string := split_ws EmptyString s.

(** [s.split(sep)] for a one-character separator. *)
Fixpoint split_on_from (sep : ascii) (cur s : string) : list string :=
  match s with
  | EmptyString => [cur]
  | String c r =>
      if Ascii.eqb c sep then cur :: split_on_from sep EmptyString r
      else split_on_from sep (cur +:+ String c EmptyString) r
  end.

Definition split_on (sep : ascii) (s : string) : list string :=
  split_on_from sep EmptyString s.

(** [s.replace(a, b)] for one-character [a] and [b]. *)
Fixpoint replace_char (a b : ascii) (s : string) : string :=
  match s with
  | EmptyString => EmptyString
  | String c r => String (if Ascii.eqb c a then b else c) (replace_char a b r)
  end.

(** [sep.join(parts)]. *)
Definition join (sep : string) (parts : list string) : string :=
  String.concat sep parts.

Definition str_of_nat (n : nat) : string :=
  NilZero.string_of_uint (Nat.to_uint n).

Definition str_of_Z (z : Z) : string :=
  NilZero.string_of_int (Z.to_int z).

(** [l[:n]] for an integer [n]: a negative [n] counts from the end. *)
Definition slice_to {A : Type} (l : list A) (n : Z) : list A :=
  if (0 <=? n)%Z then firstn (Z.to_nat n) l
  else firstn (length l - Z.to_nat (- n)) l.

(** *** [repr] and [str] of JSON-like values *)

Inductive pyval : Type :=
| PNone
| PBool (b : bool)
| PInt (z : Z)
| PStr (s : string)
| PList (items : list pyval)
| PDict (items : list (string * pyval)).

Definition quote1 : ascii := ascii_of_nat 39.
Definition quote2 : ascii := ascii_of_nat 34.
Definition backslash : ascii := ascii_of_nat 92.

Fixpoint has_char (q : ascii) (s : string) : bool :=
  match s with
  | EmptyString => false
  | String c r => Ascii.eqb c q || has_char q r
  end.

Definition hex_digit (n : nat) : ascii :=
  if (n <? 10)%nat then ascii_of_nat (48 + n) else ascii_of_nat (87 + n).

(** Code points that [repr] writes as a [\xNN] escape. *)
Definition unprintable (c : ascii) : bool :=
  let n := code c in
  ((n <? 32) || ((127 <=? n) && (n <=? 160)) || (n =? 173))%nat.

Definition escape_char (q c : ascii) : string :=
  let n := code c in
  if Ascii.eqb c q || Ascii.eqb c backslash then String backslash (String c EmptyString)
  else if (n =? 9)%nat then String backslash "t"
  else if (n =? 10)%nat then String backslash "n"
  else if (n =? 13)%nat then String backslash "r"
  else if unprintable c then
    String backslash
      (String "x" (String (hex_digit (n / 16)) (String (hex_digit (n mod 16)) EmptyString)))
  else String c EmptyString.

Fixpoint escape (q : ascii) (s : string) : string :=
  match s with
  | EmptyString => EmptyString
  | String c r => escape_char q c +:+ escape q r
  end.

(** [repr] of a string: single quotes, unless the text has a single quote
    and no double quote. *)
Definition repr_str (s : string) : string :=
  let q := if has_char quote1 s && negb (has_char quote2 s) then quote2 else quote1 in
  String q (escape q s +:+ String q EmptyString).

Fixpoint repr (v : pyval) : string :=
  match v with
  | PNone => "None"
  | PBool true => "True"
  | PBool false => "False"
  | PInt z => str_of_Z z
  | PStr s => repr_str s
  | PList items => "[" +:+ join ", " (map repr items) +:+ "]"
  | PDict items =>
      "{" +:+ join ", " (map (fun kv => repr_str (fst kv) +:+ ": " +:+ repr (snd kv)) items)
          +:+ "}"
  end.

(** [str(v)]. *)
Definition str (v : pyval) : string :=
  match v with
  | PStr s => s
  | _ => repr v
  end.

(** *** Where [str] raises

    [repr] and [str] above give the text when the conversion returns.  The
    conversion raises in two cases, which depend on two limits of the
    interpreter: [ValueError] for an integer of more digits than
    [sys.int_max_str_digits] (4300 by default since CPython 3.11, 0 for no
    limit), and [RecursionError] when lists and dicts are nested deeper
    than the recursion limit still allows where [str] is called. *)
Record Limits : Type := mkLimits {
  max_str_digits : nat;
  max_nesting : nat
}.

(** The integer has more than [max_str_digits] digits, the sign not
    counted. *)
Definition too_long (limits : Limits) (z : Z) : bool :=
  negb (max_str_digits limits =? 0)%nat
  && (10 ^ Z.of_nat (max_str_digits limits) <=? Z.abs z)%Z.

(** The first exception of a sequence of conversions run from the left. *)
Fixpoint first_error (results : list (option error)) : option error :=
  match results with
  | [] => None
  | Some e :: _ => Some e
  | None :: rest => first_error rest
  end.

(** The exception that [repr(v)] raises, if any, when [depth] more nested
    containers can be entered; items are converted from left to right and
    the first exception ends the conversion. *)
Fixpoint repr_error (limits : Limits) (depth : nat) (v : pyval) {struct v}
    : option error :=
  match v with
  | PInt z => if too_long limits z then Some ValueError else None
  | PList items =>
      match depth with
      | O => Some RecursionError
      | S d => first_error (map (repr_error limits d) items)
      end
  | PDict items =>
      match depth with
      | O => Some RecursionError
      | S d => first_error (map (fun kv => repr_error limits d (snd kv)) items)
      end
  | _ => None
  end.

(** The exception that [str(v)] raises, if any. *)
Definition str_error (limits : Limits) (v : pyval) : option error :=
  match v with
  | PStr _ => None
  | _ => repr_error limits (max_nesting limits) v
  end.

End Py.

Import Py.

(** ** Data model *)

(** The dataclass [ContentAnalysis]. *)
Record ContentAnalysis : Type := mkAnalysis {
  content_type : string;
  has_charts : bool;
  has_tables : bool;
  has_images : bool;
  text_density : string;
  structure : string;
  data_points : Z;
  key_metrics : list string
}.

(** One entry of a layout's [placeholders] dict; only the keys the
    selector reads. *)
Record Placeholder : Type := mkPlaceholder {
  ph_type : option string;
  ph_column : option string;
  ph_required : option bool
}.

(** One entry of [self.layouts]. *)
Record LayoutInfo : Type := mkLayout {
  l_semantic_name : option string;
  l_category : option string;
  l_subcategory : option string;
  l_structure : option string;
  l_use_cases : option (list string);
  l_placeholders : option (list (string * Placeholder))
}.

(** [self.layouts]: layout id to layout, in insertion order. *)
Definition Layouts : Type := list (string * LayoutInfo).

(** ** Content analysis *)

Definition chart_keywords : list string :=
  ["chart"; "graph"; "revenue"; "growth"; "trend"; "data"; "metric"; "kpi"].

Definition table_keywords : list string :=
  ["table"; "comparison"; "vs"; "versus"; "compare"].

Definition image_keywords : list string :=
  ["image"; "photo"; "picture"; "visual"; "diagram"].

Definition comparison_keys : list string :=
  ["left"; "right"; "before"; "after"; "vs"].

Definition comparison_words : list string :=
  ["versus"; "compared to"; "vs"; "while"].

Definition list_words : list string :=
  ["first"; "second"; "third"; "finally"].

Definition metric_keywords : list string :=
  ["revenue"; "profit"; "ebitda"; "growth"; "margin"; "roi"; "kpi";
   "cost"; "efficiency"; "utilization"; "occupancy"; "satisfaction"].

(** What one value of the content dict adds to [all_text] (lines 43-46):
    a string and a trailing space, the items of a list joined by spaces
    and a trailing space, nothing for any other value. *)
Definition value_text (value : pyval) : string :=
  match value with
  | PStr s => s +:+ " "
  | PList items => join " " (map str items) +:+ " "
  | _ => EmptyString
  end.

(** The loop of lines 42-46, [all_text] being the accumulator. *)
Definition items_text (items : list (string * pyval)) : string :=
  fold_left (fun all_text kv => all_text +:+ value_text (snd kv)) items EmptyString.

(** Lines 40-48: the text corpus of the content. *)
Definition all_text (content : pyval) : string :=
  match content with
  | PDict items => items_text items
  | PStr s => s
  | _ => EmptyString
  end.

Definition word_count (text : string) : nat := length (split text).

(** Lines 61-67. *)
Definition density_of (word_count : nat) : string :=
  if (word_count <? 20)%nat then "low"
  else if (word_count <? 100)%nat then "medium"
  else "high".

Definition is_dict (content : pyval) : bool :=
  match content with
  | PDict _ => true
  | _ => false
  end.

Definition is_list (value : pyval) : bool :=
  match value with
  | PList _ => true
  | _ => false
  end.

Definition dict_items (content : pyval) : list (string * pyval) :=
  match content with
  | PDict items => items
  | _ => []
  end.

(** [key in ['left', 'right', ...]]. *)
Definition key_in (keys : list string) (key : string) : bool :=
  existsb (String.eqb key) keys.

(** [_analyze_structure], the part on the text (lines 105-113). *)
Definition text_structure (text : string) : string :=
  if any_in comparison_words (lower text) then "comparison"
  else if any_in list_words (lower text) then "list"
  else if (3 <? length (split_on "." text))%nat then "narrative"
  else "single_topic".

(** [_analyze_structure]. *)
Definition _analyze_structure (content : pyval) (text : string) : string :=
  if is_dict content && existsb (key_in comparison_keys) (map fst (dict_items content))
  then "comparison"
  else if is_dict content && existsb is_list (map snd (dict_items content))
  then "list"
  else text_structure text.

(** *** The pattern [\d+\.?\d*%?|\$\d+] of [_count_data_points] *)

Definition is_digit (c : ascii) : bool :=
  let n := code c in ((48 <=? n) && (n <=? 57))%nat.

(** [\d*]: the text after the longest run of digits. *)
Fixpoint skip_digits (s : string) : string :=
  match s with
  | EmptyString => EmptyString
  | String c r => if is_digit c then skip_digits r else s
  end.

(** [a?] for a character [a]. *)
Definition skip_char (a : ascii) (s : string) : string :=
  match s with
  | EmptyString => EmptyString
  | String c r => if Ascii.eqb c a then r else s
  end.

(** First alternative, [\d+\.?\d*%?], at the head of [s]: the text after
    the match.  Every quantifier is greedy and everything after the first
    digit is optional, so the greedy choice never backtracks. *)
Definition match_number (s : string) : option string :=
  match s with
  | EmptyString => None
  | String c r =>
      if is_digit c
      then Some (skip_char "%" (skip_digits (skip_char "." (skip_digits r))))
      else None
  end.

(** Second alternative, [\$\d+], at the head of [s]. *)
Definition match_currency (s : string) : option string :=
  match s with
  | String c (String d r) =>
      if Ascii.eqb c "$" && is_digit d then Some (skip_digits r) else None
  | _ => None
  end.

(** [len(re.findall(...))]: scan from the left; after a match go on behind
    it, otherwise move one character on.  A match is never empty, so
    [fuel] equal to the length of the text is enough
    ([count_matches_fuel]). *)
Fixpoint count_matches (fuel : nat) (s : string) : nat :=
  match fuel with
  | O => O
  | S fuel' =>
      match s with
      | EmptyString => O
      | String _ r =>
          match match_number s with
          | Some rest => S (count_matches fuel' rest)
          | None =>
              match match_currency s with
              | Some rest => S (count_matches fuel' rest)
              | None => count_matches fuel' r
              end
          end
      end
  end.

Definition _count_data_points (text : string) : nat :=
  count_matches (String.length text) text.

(** [_extract_metrics]. *)
Definition _extract_metrics (text : string) : list string :=
  List.filter (fun keyword => contains keyword (lower text)) metric_keywords.

(** [_determine_content_type]. *)
Definition _determine_content_type
    (has_charts has_tables : bool) (text_density structure : string) : string :=
  if has_charts && has_tables then "dashboard"
  else if has_charts then "data_visualization"
  else if has_tables then "data_table"
  else if String.eqb text_density "high" then "narrative"
  else if String.eqb structure "comparison" then "comparison"
  else if String.eqb structure "list" then "bullet_points"
  else "general_content".

(** [analyze_content]. *)
Definition analyze_content (content : pyval) : ContentAnalysis :=
  let all_text := all_text content in
  let has_charts := any_in chart_keywords (lower all_text) in
  let has_tables := any_in table_keywords (lower all_text) in
  let has_images := any_in image_keywords (lower all_text) in
  let text_density := density_of (word_count all_text) in
  let structure := _analyze_structure content all_text in
  let data_points := _count_data_points all_text in
  let key_metrics := _extract_metrics all_text in
  let content_type :=
    _determine_content_type has_charts has_tables text_density structure in
  {| content_type := content_type;
     has_charts := has_charts;
     has_tables := has_tables;
     has_images := has_images;
     text_density := text_density;
     structure := structure;
     data_points := Z.of_nat data_points;
     key_metrics := key_metrics |}.

(** The exception that line 46 raises on one value of the content dict, if
    any: [str(item)] is run on the items of a list from left to right. *)
Definition value_error (limits : Limits) (value : pyval) : option error :=
  match value with
  | PList items => first_error (map (str_error limits) items)
  | _ => None
  end.

(** The exception that the loop of lines 42-46 raises, if any; the values
    are read in the order of the dict. *)
Definition content_error (limits : Limits) (content : pyval) : option error :=
  match content with
  | PDict items => first_error (map (fun kv => value_error limits (snd kv)) items)
  | _ => None
  end.

(** The outcome of a call of [analyze_content].  The body has no [raise]
    and no [try]; the one operation of it that can raise is the [str(item)]
    of line 46, and an exception of it leaves the function.  When it does
    not raise, the result is the record of [analyze_content]. *)
Definition call_analyze_content (limits : Limits) (content : pyval)
    : outcome ContentAnalysis :=
  match content_error limits content with
  | Some e => Raises e
  | None => Returns (analyze_content content)
  end.

(** ** Scoring *)

(** [layout_info.get(key, '')]. *)
Definition get_str (field : option string) : string := default EmptyString field.

(** [layout_info.get('placeholders', {}).values()]. *)
Definition placeholder_values (layout_info : LayoutInfo) : list Placeholder :=
  map snd (default [] (l_placeholders layout_info)).

(** [p.get('type') in types]; a missing type is [None], equal to no string. *)
Definition type_in (types : list string) (p : Placeholder) : bool :=
  match ph_type p with
  | Some t => key_in types t
  | None => false
  end.

(** [sum(1 for p in placeholders.values() if p.get('type') in types)]. *)
Definition count_type (types : list string) (layout_info : LayoutInfo) : nat :=
  length (List.filter (type_in types) (placeholder_values layout_info)).

Definition chart_placeholders (layout_info : LayoutInfo) : nat :=
  count_type ["chart"] layout_info.

Definition text_placeholders (layout_info : LayoutInfo) : nat :=
  count_type ["body"; "bullets"] layout_info.

(** [[case.replace(' ', '_') for case in use_cases]]. *)
Definition normalized_use_cases (layout_info : LayoutInfo) : list string :=
  map (replace_char " " "_") (default [] (l_use_cases layout_info)).

(** [_calculate_layout_score]; each [let score] is one statement of the
    source, in the source's order. *)
Definition _calculate_layout_score
    (analysis : ContentAnalysis) (layout_info : LayoutInfo) : Z :=
  let score := 0%Z in
  let category := get_str (l_category layout_info) in
  let score :=
    if String.eqb (content_type analysis) "data_visualization"
       && String.eqb category "data_visualization"
    then (score + 3)%Z
    else if String.eqb (content_type analysis) "narrative"
            && String.eqb category "content"
    then (score + 3)%Z
    else if String.eqb (content_type analysis) "dashboard"
            && contains "dashboard" (get_str (l_subcategory layout_info))
    then (score + 3)%Z
    else score in
  let layout_structure := get_str (l_structure layout_info) in
  let score :=
    if String.eqb (structure analysis) "comparison"
       && contains "two_column" layout_structure
    then (score + 2)%Z
    else if String.eqb (structure analysis) "single_topic"
            && contains "single_column" layout_structure
    then (score + 2)%Z
    else score in
  let chart_placeholders := chart_placeholders layout_info in
  let score :=
    if has_charts analysis then
      let score := if (0 <? chart_placeholders)%nat then (score + 2)%Z else score in
      if (5 <? data_points analysis)%Z && (2 <=? chart_placeholders)%nat
      then (score + 1)%Z else score
    else if (0 <? chart_placeholders)%nat then (score - 1)%Z
    else score in
  let text_placeholders := text_placeholders layout_info in
  let score :=
    if String.eqb (text_density analysis) "high" && (2 <=? text_placeholders)%nat
    then (score + 1)%Z
    else if String.eqb (text_density analysis) "low" && (text_placeholders =? 1)%nat
    then (score + 1)%Z
    else score in
  let score :=
    if key_in (normalized_use_cases layout_info) (content_type analysis)
    then (score + 1)%Z else score in
  score.

(** [_generate_recommendation_reason]. *)
Definition _generate_recommendation_reason
    (analysis : ContentAnalysis) (layout_info : LayoutInfo) (score : Z) : string :=
  let layout_name := default "Unknown Layout" (l_semantic_name layout_info) in
  let reasons :=
    [ if (3 <=? score)%Z then "Perfect match for " +:+ content_type analysis
      else if (2 <=? score)%Z then "Good fit for " +:+ content_type analysis
      else if (1 <=? score)%Z then "Suitable for " +:+ content_type analysis
      else "Partial match" ] in
  let chart_count := chart_placeholders layout_info in
  let reasons :=
    if has_charts analysis && (0 <? chart_count)%nat
    then reasons ++ ["Supports " +:+ str_of_nat chart_count +:+ " chart(s)"]
    else reasons in
  let reasons :=
    if String.eqb (structure analysis) "comparison"
       && contains "two_column" (get_str (l_structure layout_info))
    then reasons ++ ["Ideal for comparisons"]
    else reasons in
  layout_name +:+ ": " +:+ join ", " reasons.

(** ** Ranking *)

(** The tuple [(layout_id, score, reason)]. *)
Definition Recommendation : Type := (string * Z * string)%type.

Definition id_of (r : Recommendation) : string := fst (fst r).
Definition score_of (r : Recommendation) : Z := snd (fst r).

(** [list.sort(key=..., reverse=True)] is a stable sort by descending key:
    elements with equal keys keep their order.  It is modelled by the
    insertion sort that puts an element in front of the first one whose
    key is not larger. *)
Fixpoint insert_desc {A : Type} (key : A -> Z) (x : A) (l : list A) : list A :=
  match l with
  | [] => [x]
  | y :: r =>
      if (key x <? key y)%Z then y :: insert_desc key x r
      else x :: y :: r
  end.

Definition sort_desc {A : Type} (key : A -> Z) (l : list A) : list A :=
  fold_right (insert_desc key) [] l.

(** Lines 156-161: one tuple per layout, in the order of [self.layouts]. *)
Definition scored_layouts (layouts : Layouts) (analysis : ContentAnalysis)
    : list Recommendation :=
  map (fun entry =>
         let score := _calculate_layout_score analysis (snd entry) in
         let reason := _generate_recommendation_reason analysis (snd entry) score in
         (fst entry, score, reason))
      layouts.

(** [recommend_layouts]. *)
Definition recommend_layouts (layouts : Layouts) (content : pyval) (top_n : Z)
    : list Recommendation :=
  let analysis := analyze_content content in
  let recommendations := scored_layouts layouts analysis in
  slice_to (sort_desc score_of recommendations) top_n.


(** ** Layout details *)

Record PlaceholderSummary : Type := mkSummary {
  total_count : nat;
  by_type : gmap string nat;
  by_column : gmap string nat;
  required_count : nat
}.

(** [d[k] = d.get(k, 0) + 1]. *)
Definition bump (k : string) (d : gmap string nat) : gmap string nat :=
  <[k := default 0%nat (d !! k) + 1]> d.

(** The body of the loop of [_summarize_placeholders]. *)
Definition summarize_step (summary : PlaceholderSummary) (placeholder_info : Placeholder)
    : PlaceholderSummary :=
  let ptype := default "unknown" (ph_type placeholder_info) in
  let column := default "none" (ph_column placeholder_info) in
  {| total_count := total_count summary;
     by_type := bump ptype (by_type summary);
     by_column := bump column (by_column summary);
     required_count :=
       if default false (ph_required placeholder_info)
       then required_count summary + 1
       else required_count summary |}.

(** [_summarize_placeholders]. *)
Definition _summarize_placeholders (layout : LayoutInfo) : PlaceholderSummary :=
  let placeholders := default [] (l_placeholders layout) in
  fold_left summarize_step (map snd placeholders)
    {| total_count := length placeholders;
       by_type := ∅;
       by_column := ∅;
       required_count := 0 |}.

(** The dict that [get_layout_details] returns: [{"error": message}], or
    a copy of the layout with the keys [ai_optimized] and
    [placeholder_summary] added. *)
Inductive LayoutDetails : Type :=
| ErrorDict (message : string)
| EnhancedLayout (layout : LayoutInfo) (ai_optimized : bool)
    (placeholder_summary : PlaceholderSummary).

(** [self.layouts[layout_id]], [None] when [layout_id not in self.layouts]. *)
Fixpoint lookup_layout (layouts : Layouts) (layout_id : string) : option LayoutInfo :=
  match layouts with
  | [] => None
  | (k, layout) :: rest =>
      if String.eqb k layout_id then Some layout else lookup_layout rest layout_id
  end.

(** [get_layout_details]. *)
Definition get_layout_details (layouts : Layouts) (layout_id : string) : LayoutDetails :=
  match lookup_layout layouts layout_id with
  | None => ErrorDict ("Layout " +:+ layout_id +:+ " not found")
  | Some layout => EnhancedLayout layout true (_summarize_placeholders layout)
  end.

(** The outcome of a call of [get_layout_details]: both branches end in
    [return]. *)
Definition call_get_layout_details (layouts : Layouts) (layout_id : string)
    : outcome LayoutDetails :=
  Returns (get_layout_details layouts layout_id).

(** ** The scoring table, term by term *)

Definition bonus (condition : bool) (amount : Z) : Z :=
  if condition then amount else 0%Z.

(** The first ten rows of the table of independent terms. *)
Definition table_terms (analysis : ContentAnalysis) (layout_info : LayoutInfo) : list Z :=
  let category := get_str (l_category layout_info) in
  let subcategory := get_str (l_subcategory layout_info) in
  let layout_structure := get_str (l_structure layout_info) in
  let charts := chart_placeholders layout_info in
  let texts := text_placeholders layout_info in
  [ bonus (String.eqb (content_type analysis) "data_visualization"
           && String.eqb category "data_visualization") 3;
    bonus (String.eqb (content_type analysis) "narrative"
           && String.eqb category "content") 3;
    bonus (String.eqb (content_type analysis) "dashboard"
           && contains "dashboard" subcategory) 3;
    bonus (String.eqb (structure analysis) "comparison"
           && contains "two_column" layout_structure) 2;
    bonus (String.eqb (structure analysis) "single_topic"
           && contains "single_column" layout_structure) 2;
    bonus (has_charts analysis && (1 <=? charts)%nat) 2;
    bonus (has_charts analysis && (5 <? data_points analysis)%Z && (2 <=? charts)%nat) 1;
    bonus (negb (has_charts analysis) && (1 <=? charts)%nat) (-1);
    bonus (String.eqb (text_density analysis) "high" && (2 <=? texts)%nat) 1;
    bonus (String.eqb (text_density analysis) "low" && (texts =? 1)%nat) 1 ]%Z.

(** Eleventh row as the source computes it: the content type is looked up
    among the layout's use cases after the spaces of each use case are
    replaced by underscores. *)
Definition use_case_term (analysis : ContentAnalysis) (layout_info : LayoutInfo) : Z :=
  bonus (key_in (normalized_use_cases layout_info) (content_type analysis)) 1.

(** Eleventh row as the specification words it: the content type, with
    its spaces replaced by underscores, is looked up among the layout's
    use cases as they are. *)
Definition use_case_term_spec (analysis : ContentAnalysis) (layout_info : LayoutInfo) : Z :=
  bonus (key_in (default [] (l_use_cases layout_info))
                (replace_char " " "_" (content_type analysis))) 1.

Definition total (terms : list Z) : Z := fold_right Z.add 0%Z terms.

Definition score_terms (analysis : ContentAnalysis) (layout_info : LayoutInfo) : list Z :=
  table_terms analysis layout_info ++ [use_case_term analysis layout_info].

Definition score_terms_spec (analysis : ContentAnalysis) (layout_info : LayoutInfo) : list Z :=
  table_terms analysis layout_info ++ [use_case_term_spec analysis layout_info].

(** ** Notions used by the statements *)

(** [s] occurs in [t]. *)
Definition Substring (s t : string) : Prop :=
  exists pre post, t = pre +:+ s +:+ post.

(** Every string leaf of a value, through nested lists and dicts. *)
Fixpoint string_leaves (v : pyval) : list string :=
  match v with
  | PStr s => [s]
  | PList items => concat (map string_leaves items)
  | PDict items => concat (map (fun kv => string_leaves (snd kv)) items)
  | _ => []
  end.

Definition string_items (items : list pyval) : list string :=
  flat_map (fun v => match v with PStr s => [s] | _ => [] end) items.

(** The strings the source reads: the string values of the content dict
    and the string items of its list values. *)
Definition top_level_strings (items : list (string * pyval)) : list string :=
  flat_map (fun kv =>
              match snd kv with
              | PStr s => [s]
              | PList l => string_items l
              | _ => []
              end) items.

(** A value that is neither a string nor a list. *)
Definition unread_value (v : pyval) : bool :=
  match v with
  | PStr _ | PList _ => false
  | _ => true
  end.

(** [x] may stand before [y] in a list of descending keys. *)
Definition key_desc {A : Type} (key : A -> Z) (x y : A) : Prop :=
  (key y <= key x)%Z.

(** Scores never increase along the list. *)
Definition descending (rs : list Recommendation) : Prop :=
  StronglySorted (key_desc score_of) rs.

(** Entries of equal score are in ascending order of layout id. *)
Definition ties_by_ascending_id (rs : list Recommendation) : Prop :=
  forall (i j : nat) (r1 r2 : Recommendation),
    (i < j)%nat -> rs !! i = Some r1 -> rs !! j = Some r2 ->
    score_of r1 = score_of r2 -> String.leb (id_of r1) (id_of r2) = true.

(** The entries of a given score, in list order. *)
Definition with_score (s : Z) (rs : list Recommendation) : list Recommendation :=
  List.filter (fun r => (score_of r =? s)%Z) rs.

(** Sum of the counts of a [by_type] or [by_column] dict. *)
Definition counts_total (d : gmap string nat) : nat :=
  map_fold (fun _ c acc => (c + acc)%nat) 0%nat d.

(** Number of placeholders filed under [tag] when a missing tag counts
    as [dflt]. *)
Definition tagged (tag_of : Placeholder -> option string) (dflt tag : string)
    (phs : list Placeholder) : nat :=
  length (List.filter (fun p => String.eqb (default dflt (tag_of p)) tag) phs).

(** ** Sample inputs *)

(** A corpus of [n] words. *)
Fixpoint words (n : nat) : string :=
  match n with
  | O => EmptyString
  | S m => "word " +:+ words m
  end.

Definition empty_layout : LayoutInfo :=
  mkLayout None None None None None None.

Definition chart_ph : Placeholder := mkPlaceholder (Some "chart") None (Some true).
Definition body_ph : Placeholder := mkPlaceholder (Some "body") (Some "left") None.

(** A layout whose only use case is written with a space. *)
Definition spaced_use_case_layout : LayoutInfo :=
  mkLayout None None None None (Some ["data visualization"]) None.

Definition visualization_analysis : ContentAnalysis :=
  mkAnalysis "data_visualization" true false false "low" "single_topic" 2 [].

(** A chart layout on which four rows of the table fire together. *)
Definition chart_layout : LayoutInfo :=
  mkLayout (Some "Chart Focus") (Some "data_visualization") None
    (Some "single_column") (Some ["data visualization"])
    (Some [("chart_main", chart_ph); ("notes", body_ph)]).

(** Two layouts of equal score, stored in descending order of id. *)
Definition tied_layouts : Layouts :=
  [("layout_b", empty_layout); ("layout_a", empty_layout)].

Definition nested_bundle : pyval :=
  PDict [("details", PDict [("note", PStr "hello")])].

Definition comparison_bundle : pyval :=
  PDict [("left", PStr "dashboard first"); ("items", PList [PStr "one"; PStr "two"])].

(** The defaults of CPython 3.11: 4300 digits, and a recursion limit of
    1000 frames, which is more than the nesting that [str] can reach. *)
Definition cpython_limits : Limits := mkLimits 4300 1000.

(** A mapping whose list holds an integer of 4301 digits. *)
Definition huge_item_bundle : pyval :=
  PDict [("title", PStr "Totals"); ("values", PList [PStr "sum"; PInt (10 ^ 4300)])].

(** [n + 1] lists, one inside the other. *)
Fixpoint nested (n : nat) : pyval :=
  match n with
  | O => PList []
  | S m => PList [nested m]
  end.

(** Every item of a list value of the mapping is a string. *)
Definition is_str (v : pyval) : bool :=
  match v with
  | PStr _ => true
  | _ => false
  end.

Definition string_items_only (items : list (string * pyval)) : bool :=
  forallb (fun kv => match snd kv with
                     | PList l => forallb is_str l
                     | _ => true
                     end) items.

(** ** Notions used by the further properties *)

(** The layout ids of a catalog, in catalog order. *)
Definition layout_ids (layouts : Layouts) : list string := map fst layouts.

(** The score of one catalog entry for an analysis. *)
Definition entry_score (analysis : ContentAnalysis) (entry : string * LayoutInfo) : Z :=
  _calculate_layout_score analysis (snd entry).

(** The same record with another [has_charts]. *)
Definition set_has_charts (b : bool) (a : ContentAnalysis) : ContentAnalysis :=
  {| content_type := content_type a;
     has_charts := b;
     has_tables := has_tables a;
     has_images := has_images a;
     text_density := text_density a;
     structure := structure a;
     data_points := data_points a;
     key_metrics := key_metrics a |}.

(** Number of digits of a text. *)
Fixpoint count_digits (s : string) : nat :=
  match s with
  | EmptyString => O
  | String c r => ((if is_digit c then 1 else 0) + count_digits r)%nat
  end.

(** Number of occurrences of a character. *)
Fixpoint count_char (a : ascii) (s : string) : nat :=
  match s with
  | EmptyString => O
  | String c r => ((if Ascii.eqb c a then 1 else 0) + count_char a r)%nat
  end.

(** A keyword that is not empty and has no space. *)
Definition one_word (k : string) : bool :=
  negb (String.eqb k EmptyString) && negb (has_char " " k).

(** The analysis of the mapping that holds one item only. *)
Definition item_analysis (kv : string * pyval) : ContentAnalysis :=
  analyze_content (PDict [kv]).

(** The same layout with another [placeholders] dict. *)
Definition set_placeholders (placeholders : list (string * Placeholder))
    (layout : LayoutInfo) : LayoutInfo :=
  {| l_semantic_name := l_semantic_name layout;
     l_category := l_category layout;
     l_subcategory := l_subcategory layout;
     l_structure := l_structure layout;
     l_use_cases := l_use_cases layout;
     l_placeholders := Some placeholders |}.

(** The last character of a keyword is not a space (and there is one). *)
Fixpoint ends_in_letter (k : string) : bool :=
  match k with
  | EmptyString => false
  | String c EmptyString => negb (Ascii.eqb c " ")
  | String _ r => ends_in_letter r
  end.

(** No key of a counting dict holds a zero. *)
Definition positive_counts (d : gmap string nat) : Prop :=
  forall (tag : string) (c : nat), d !! tag = Some c -> (1 <= c)%nat.

Definition sum_Z (l : list Z) : Z := fold_right Z.add 0%Z l.
Definition sum_nat (l : list nat) : nat := fold_right Nat.add 0%nat l.

(** Two catalogs used as examples. *)
Definition ranked_layouts : Layouts :=
  ("charts", chart_layout) :: tied_layouts.

(** A layout on which every positive row can fire for chart content. *)
Definition full_chart_layout : LayoutInfo :=
  mkLayout (Some "Dual Charts") (Some "data_visualization") None
    (Some "single_column") (Some ["data visualization"])
    (Some [("chart_left", chart_ph); ("chart_right", chart_ph); ("notes", body_ph)]).

Definition rich_chart_analysis : ContentAnalysis :=
  mkAnalysis "data_visualization" true false false "low" "single_topic" 6 ["revenue"].

Definition plain_analysis : ContentAnalysis :=
  mkAnalysis "general_content" false false false "medium" "narrative" 0 [].

(** ** Strings *)

Lemma str_app_assoc (a b c : string) : (a +:+ b) +:+ c = a +:+ b +:+ c.
Proof. induction a as [|x a IH]; [reflexivity | simpl; f_equal; exact IH]. Qed.

Lemma str_app_nil_r (a : string) : a +:+ EmptyString = a.
Proof. induction a as [|x a IH]; [reflexivity | simpl; f_equal; exact IH]. Qed.

Lemma prefix_app (n post : string) : String.prefix n (n +:+ post) = true.
Proof.
  induction n as [|x n IH]; simpl.
  - now destruct post.
  - destruct (ascii_dec x x) as [_|Hne]; [exact IH | now elim Hne].
Qed.

Lemma prefix_inv (n h : string) :
  String.prefix n h = true -> exists post, h = n +:+ post.
Proof.
  revert h; induction n as [|x n IH]; intros h H.
  - exists h; reflexivity.
  - destruct h as [|y h]; simpl in H; [discriminate|].
    destruct (ascii_dec x y) as [->|_]; [|discriminate].
    destruct (IH h H) as [post ->]. exists post; reflexivity.
Qed.

(** [contains] decides [Substring]. *)
Lemma contains_Substring (n h : string) : contains n h = true <-> Substring n h.
Proof.
  split.
  - induction h as [|y h IH]; intros H.
    + destruct n; [|discriminate]. exists EmptyString, EmptyString. reflexivity.
    + change (String.prefix n (String y h) || contains n h = true) in H.
      apply orb_true_iff in H as [H|H].
      * destruct (prefix_inv _ _ H) as [post E]. exists EmptyString, post. exact E.
      * destruct (IH H) as (pre & post & ->). exists (String y pre), post. reflexivity.
  - intros (pre & post & ->). induction pre as [|y pre IH].
    + change (EmptyString +:+ n +:+ post) with (n +:+ post).
      destruct (n +:+ post) eqn:E; unfold contains; fold contains;
        rewrite <- E, prefix_app; reflexivity.
    + change (String.prefix n (String y (pre +:+ n +:+ post))
              || contains n (pre +:+ n +:+ post) = true).
      rewrite IH. apply orb_true_r.
Qed.

Lemma Substring_app_l (s t pre : string) : Substring s t -> Substring s (pre +:+ t).
Proof.
  intros (a & b & ->). exists (pre +:+ a), b. now rewrite str_app_assoc.
Qed.

Lemma Substring_app_r (s t post : string) : Substring s t -> Substring s (t +:+ post).
Proof.
  intros (a & b & ->). exists a, (b +:+ post). now rewrite !str_app_assoc.
Qed.

(** ** The text corpus *)

Lemma fold_text (items : list (string * pyval)) (acc : string) :
  fold_left (fun all_text kv => all_text +:+ value_text (snd kv)) items acc
  = acc +:+ items_text items.
Proof.
  unfold items_text. revert acc.
  induction items as [|kv items IH]; intros acc; simpl.
  - now rewrite str_app_nil_r.
  - rewrite IH, (IH (value_text (snd kv))). now rewrite str_app_assoc.
Qed.

Lemma items_text_cons (kv : string * pyval) (items : list (string * pyval)) :
  items_text (kv :: items) = value_text (snd kv) +:+ items_text items.
Proof. unfold items_text at 1. simpl. apply fold_text. Qed.

Lemma items_text_app (a b : list (string * pyval)) :
  items_text (a ++ b) = items_text a +:+ items_text b.
Proof.
  induction a as [|kv a IH]; [reflexivity|].
  simpl. now rewrite !items_text_cons, IH, str_app_assoc.
Qed.

(** Each part of a space-joined list is followed by a space once a space
    is put behind the whole. *)
Lemma join_member (s : string) (parts : list string) :
  In s parts -> Substring (s +:+ " ") (join " " parts +:+ " ").
Proof.
  induction parts as [|x parts IH]; [intros []|].
  intros Hin. destruct parts as [|y parts].
  - destruct Hin as [->|[]]. exists EmptyString, EmptyString.
    simpl. now rewrite str_app_nil_r.
  - change (join " " (x :: y :: parts)) with (x +:+ " " +:+ join " " (y :: parts)).
    destruct Hin as [->|Hin].
    + exists EmptyString, (join " " (y :: parts) +:+ " ").
      simpl. now rewrite !str_app_assoc.
    + rewrite !str_app_assoc. apply Substring_app_l.
      apply (Substring_app_l _ _ " "). apply IH, Hin.
Qed.

Lemma string_items_str (s : string) (l : list pyval) :
  In s (string_items l) -> In s (map str l).
Proof.
  unfold string_items. rewrite in_flat_map. intros (v & Hv & Hs).
  apply in_map_iff. exists v. split; [|exact Hv].
  destruct v; simpl in Hs; try contradiction.
  destruct Hs as [->|[]]. reflexivity.
Qed.

Lemma value_text_member (s : string) (v : pyval) :
  In s (match v with PStr s => [s] | PList l => string_items l | _ => [] end) ->
  Substring (s +:+ " ") (value_text v).
Proof.
  destruct v; simpl; try contradiction.
  - intros [->|[]]. exists EmptyString, EmptyString. simpl. now rewrite str_app_nil_r.
  - intros H. apply join_member, string_items_str, H.
Qed.

Lemma top_level_member (s : string) (items : list (string * pyval)) :
  In s (top_level_strings items) -> Substring (s +:+ " ") (items_text items).
Proof.
  induction items as [|kv items IH]; [intros []|].
  unfold top_level_strings. simpl. rewrite in_app_iff, items_text_cons.
  intros [H|H].
  - apply Substring_app_r, value_text_member, H.
  - apply Substring_app_l, IH, H.
Qed.

Lemma items_text_values (a b : list (string * pyval)) :
  map snd a = map snd b -> items_text a = items_text b.
Proof.
  revert b; induction a as [|x a IH]; intros [|y b] E; try discriminate; [reflexivity|].
  simpl in E. injection E as E1 E2.
  now rewrite !items_text_cons, E1, (IH b E2).
Qed.

Lemma items_text_unread (items : list (string * pyval)) :
  forallb unread_value (map snd items) = true -> items_text items = EmptyString.
Proof.
  induction items as [|kv items IH]; [reflexivity|].
  simpl. rewrite andb_true_iff. intros [Hv Hr].
  rewrite items_text_cons, (IH Hr).
  destruct (snd kv); simpl in Hv; try discriminate; reflexivity.
Qed.

(** ** Counting data points: the fuel is enough *)

Lemma skip_digits_length (s : string) :
  (String.length (skip_digits s) <= String.length s)%nat.
Proof.
  induction s as [|c s IH]; simpl; [lia|].
  destruct (is_digit c); simpl; lia.
Qed.

Lemma skip_char_length (a : ascii) (s : string) :
  (String.length (skip_char a s) <= String.length s)%nat.
Proof.
  destruct s as [|c s]; simpl; [lia|].
  destruct (Ascii.eqb c a); simpl; lia.
Qed.

Lemma match_number_shorter (s rest : string) :
  match_number s = Some rest -> (String.length rest < String.length s)%nat.
Proof.
  destruct s as [|c s]; simpl; [discriminate|].
  destruct (is_digit c); [|discriminate].
  intros [= <-].
  pose proof (skip_digits_length s).
  pose proof (skip_char_length "." (skip_digits s)).
  pose proof (skip_digits_length (skip_char "." (skip_digits s))).
  pose proof (skip_char_length "%" (skip_digits (skip_char "." (skip_digits s)))).
  lia.
Qed.

Lemma match_currency_shorter (s rest : string) :
  match_currency s = Some rest -> (String.length rest < String.length s)%nat.
Proof.
  destruct s as [|c [|d s]]; simpl; try discriminate.
  destruct (Ascii.eqb c "$" && is_digit d); [|discriminate].
  intros [= <-]. pose proof (skip_digits_length s). lia.
Qed.

Lemma count_matches_any_fuel (f1 f2 : nat) (s : string) :
  (String.length s <= f1)%nat -> (String.length s <= f2)%nat ->
  count_matches f1 s = count_matches f2 s.
Proof.
  revert f2 s. induction f1 as [|f1 IH]; intros f2 s H1 H2.
  - destruct s; simpl in H1; [|lia]. now destruct f2.
  - destruct f2 as [|f2]; [destruct s; simpl in H2; [reflexivity | lia]|].
    destruct s as [|c s]; [reflexivity|].
    cbn [count_matches]. simpl in H1, H2.
    destruct (match_number (String c s)) as [rest|] eqn:En.
    + apply match_number_shorter in En. simpl in En. f_equal. apply IH; lia.
    + destruct (match_currency (String c s)) as [rest|] eqn:Ec.
      * apply match_currency_shorter in Ec. simpl in Ec. f_equal. apply IH; lia.
      * apply IH; lia.
Qed.

(** More fuel than the length of the text changes nothing. *)
Lemma count_matches_fuel (fuel : nat) (text : string) :
  (String.length text <= fuel)%nat ->
  count_matches fuel text = _count_data_points text.
Proof.
  intros H. unfold _count_data_points. apply count_matches_any_fuel; [exact H | lia].
Qed.

(** ** Word counts *)

Lemma split_words (n : nat) : split (words (S n)) = "word" :: split (words n).
Proof. reflexivity. Qed.

Lemma word_count_words (n : nat) : word_count (words n) = n.
Proof.
  unfold word_count. induction n as [|n IH]; [reflexivity|].
  rewrite split_words. simpl. now rewrite IH.
Qed.

(** ** The stable sort *)

Section Sorting.
Context {A : Type} (key : A -> Z).

Lemma insert_desc_Forall (P : A -> Prop) (x : A) (l : list A) :
  P x -> Forall P l -> Forall P (insert_desc key x l).
Proof using Type.
  intros Hx Hl. induction Hl as [|y l Hy Hl IH]; simpl.
  - constructor; [exact Hx | constructor].
  - destruct (key x <? key y)%Z; repeat constructor; assumption.
Qed.

Lemma insert_desc_sorted (x : A) (l : list A) :
  StronglySorted (key_desc key) l -> StronglySorted (key_desc key) (insert_desc key x l).
Proof using Type.
  induction 1 as [|y l Hl IH Hy]; simpl.
  - repeat constructor.
  - destruct (key x <? key y)%Z eqn:E.
    + constructor; [exact IH|].
      apply insert_desc_Forall; [|exact Hy].
      unfold key_desc. apply Z.ltb_lt in E. lia.
    + apply Z.ltb_ge in E. constructor; [constructor; assumption|].
      constructor; [exact E|].
      eapply Forall_impl; [exact Hy|].
      unfold key_desc. intros z Hz. lia.
Qed.

Lemma sort_desc_sorted (l : list A) : StronglySorted (key_desc key) (sort_desc key l).
Proof using Type.
  induction l as [|x l IH]; simpl; [constructor | apply insert_desc_sorted, IH].
Qed.

(** Stability: among the elements of one key, [insert_desc] puts the new
    element first. *)
Lemma insert_desc_filter (s : Z) (x : A) (l : list A) :
  List.filter (fun y => (key y =? s)%Z) (insert_desc key x l)
  = List.filter (fun y => (key y =? s)%Z) (x :: l).
Proof using Type.
  induction l as [|y l IH]; [reflexivity|].
  simpl. destruct (key x <? key y)%Z eqn:E; [|reflexivity].
  simpl. rewrite IH. simpl.
  destruct (key x =? s)%Z eqn:Ex; [|reflexivity].
  destruct (key y =? s)%Z eqn:Ey; [|reflexivity].
  apply Z.ltb_lt in E. apply Z.eqb_eq in Ex, Ey. lia.
Qed.

Lemma sort_desc_filter (s : Z) (l : list A) :
  List.filter (fun y => (key y =? s)%Z) (sort_desc key l)
  = List.filter (fun y => (key y =? s)%Z) l.
Proof using Type.
  induction l as [|x l IH]; [reflexivity|].
  simpl sort_desc. rewrite insert_desc_filter. simpl. now rewrite IH.
Qed.

Lemma insert_desc_length (x : A) (l : list A) :
  length (insert_desc key x l) = S (length l).
Proof using Type.
  induction l as [|y l IH]; [reflexivity|].
  simpl. destruct (key x <? key y)%Z; simpl; [now rewrite IH | reflexivity].
Qed.

Lemma sort_desc_length (l : list A) : length (sort_desc key l) = length l.
Proof using Type.
  induction l as [|x l IH]; [reflexivity|].
  simpl. now rewrite insert_desc_length, IH.
Qed.
End Sorting.

Lemma firstn_sorted {A : Type} (R : A -> A -> Prop) (n : nat) (l : list A) :
  StronglySorted R l -> StronglySorted R (firstn n l).
Proof.
  intros H. revert n. induction H as [|x l Hl IH Hx]; intros [|n]; simpl;
    try constructor.
  - apply IH.
  - apply Forall_take, Hx.
Qed.

Lemma firstn_filter_prefix {A : Type} (p : A -> bool) (n : nat) (l : list A) :
  List.filter p (firstn n l) `prefix_of` List.filter p l.
Proof.
  exists (List.filter p (skipn n l)).
  now rewrite <- List.filter_app, firstn_skipn.
Qed.

(** ** Counting dicts *)

Lemma counts_total_comm (z1 z2 y : nat) :
  (z1 + (z2 + y) = z2 + (z1 + y))%nat.
Proof. lia. Qed.

Lemma counts_total_bump (k : string) (d : gmap string nat) :
  counts_total (bump k d) = S (counts_total d).
Proof.
  unfold counts_total, bump. destruct (d !! k) as [c|] eqn:E; simpl.
  - rewrite <- (insert_delete_eq d k (c + 1)%nat).
    rewrite map_fold_insert_L;
      [|intros; apply counts_total_comm | apply lookup_delete_eq].
    rewrite (map_fold_delete_L _ _ k c d);
      [|intros; apply counts_total_comm | exact E].
    lia.
  - rewrite map_fold_insert_L; [|intros; apply counts_total_comm | exact E].
    lia.
Qed.

Lemma bump_lookup (k tag : string) (d : gmap string nat) :
  default 0%nat (bump k d !! tag)
  = ((if String.eqb k tag then 1 else 0) + default 0%nat (d !! tag))%nat.
Proof.
  unfold bump. destruct (String.eqb_spec k tag) as [->|Hne].
  - rewrite lookup_insert_eq. simpl. lia.
  - rewrite lookup_insert_ne by exact Hne. reflexivity.
Qed.

(** What the loop of [_summarize_placeholders] adds to a summary. *)
Lemma summarize_loop (phs : list Placeholder) (init : PlaceholderSummary) :
  let s := fold_left summarize_step phs init in
  total_count s = total_count init
  /\ counts_total (by_type s) = (counts_total (by_type init) + length phs)%nat
  /\ counts_total (by_column s) = (counts_total (by_column init) + length phs)%nat
  /\ required_count s
     = (required_count init
        + length (List.filter (fun p => default false (ph_required p)) phs))%nat
  /\ (forall tag, default 0%nat (by_type s !! tag)
        = (default 0%nat (by_type init !! tag) + tagged ph_type "unknown" tag phs)%nat)
  /\ (forall tag, default 0%nat (by_column s !! tag)
        = (default 0%nat (by_column init !! tag) + tagged ph_column "none" tag phs)%nat).
Proof.
  revert init. induction phs as [|p phs IH]; intros init.
  - simpl. unfold tagged. simpl. repeat split; intros; lia.
  - simpl fold_left. specialize (IH (summarize_step init p)).
    destruct IH as (H1 & H2 & H3 & H4 & H5 & H6).
    cbv zeta in *.
    rewrite H1, H2, H3, H4. unfold summarize_step at 1 2 3 4. simpl.
    rewrite !counts_total_bump.
    repeat split; try lia.
    + destruct (default false (ph_required p)); simpl; lia.
    + intros tag. rewrite H5. unfold summarize_step. simpl.
      rewrite bump_lookup. unfold tagged. simpl.
      destruct (String.eqb (default "unknown" (ph_type p)) tag); simpl; lia.
    + intros tag. rewrite H6. unfold summarize_step. simpl.
      rewrite bump_lookup. unfold tagged. simpl.
      destruct (String.eqb (default "none" (ph_column p)) tag); simpl; lia.
Qed.

Lemma filter_length_le {A : Type} (p : A -> bool) (l : list A) :
  (length (List.filter p l) <= length l)%nat.
Proof.
  induction l as [|x l IH]; simpl; [lia|]. destruct (p x); simpl; lia.
Qed.

(** ** The score as a sum of terms *)

Lemma eqb_other (x a b : string) :
  String.eqb x a = true -> a <> b -> String.eqb x b = false.
Proof.
  intros Ha Hne. apply String.eqb_eq in Ha. subst x. now apply String.eqb_neq.
Qed.

(** An [if/elif/elif] over tests of which at most one holds adds the
    bonus of each branch. *)
Lemma elif3_sum (c1 c2 c3 k1 k2 k3 : bool) (s n1 n2 n3 : Z) :
  (c1 = true -> c2 = false /\ c3 = false) -> (c2 = true -> c3 = false) ->
  (if c1 && k1 then s + n1 else if c2 && k2 then s + n2
   else if c3 && k3 then s + n3 else s)%Z
  = (s + (bonus (c1 && k1) n1 + (bonus (c2 && k2) n2 + bonus (c3 && k3) n3)))%Z.
Proof.
  intros H1 H2. unfold bonus.
  destruct c1; [destruct (H1 eq_refl) as [-> ->]|];
    [|destruct c2; [rewrite (H2 eq_refl)|]];
    destruct k1, k2, k3; try destruct c3; simpl; lia.
Qed.

Lemma elif2_sum (c1 c2 k1 k2 : bool) (s n1 n2 : Z) :
  (c1 = true -> c2 = false) ->
  (if c1 && k1 then s + n1 else if c2 && k2 then s + n2 else s)%Z
  = (s + (bonus (c1 && k1) n1 + bonus (c2 && k2) n2))%Z.
Proof.
  intros H1. unfold bonus.
  destruct c1; [rewrite (H1 eq_refl)|]; destruct k1, k2; try destruct c2; simpl; lia.
Qed.

(** The chart block of the score: rows six to eight of the table. *)
Lemma chart_block_sum (hc big : bool) (charts : nat) (s : Z) :
  (if hc then
     let s' := if (0 <? charts)%nat then s + 2 else s in
     if big && (2 <=? charts)%nat then s' + 1 else s'
   else if (0 <? charts)%nat then s - 1 else s)%Z
  = (s + (bonus (hc && (1 <=? charts)%nat) 2
          + (bonus (hc && big && (2 <=? charts)%nat) 1
             + bonus (negb hc && (1 <=? charts)%nat) (-1))))%Z.
Proof.
  unfold bonus. change (0 <? charts)%nat with (1 <=? charts)%nat.
  destruct hc, big, (1 <=? charts)%nat, (2 <=? charts)%nat; simpl; lia.
Qed.

Lemma score_sum (analysis : ContentAnalysis) (layout_info : LayoutInfo) :
  _calculate_layout_score analysis layout_info
  = total (score_terms analysis layout_info).
Proof.
  unfold _calculate_layout_score, score_terms, table_terms, use_case_term, total.
  cbv zeta. cbn [app fold_right].
  rewrite elif3_sum.
  2: { intros H. split; apply (eqb_other _ _ _ H); discriminate. }
  2: { intros H. apply (eqb_other _ _ _ H); discriminate. }
  rewrite elif2_sum.
  2: { intros H. apply (eqb_other _ _ _ H); discriminate. }
  pose proof (chart_block_sum (has_charts analysis) (5 <? data_points analysis)%Z
                (chart_placeholders layout_info)) as Hc.
  cbv zeta in Hc. rewrite Hc. clear Hc.
  rewrite elif2_sum.
  2: { intros H. apply (eqb_other _ _ _ H); discriminate. }
  destruct (key_in (normalized_use_cases layout_info) (content_type analysis));
    [change (bonus true 1) with 1%Z | change (bonus false 1) with 0%Z]; lia.
Qed.

(** * Properties of the selector *)

(** ** Scoring *)

(** C1, as the table states it, fails: the last row of the table looks the
    content type (spaces replaced by underscores) up among the use cases
    as they are written, and for the use case "data visualization" and
    the content type data_visualization that sum is 0 while the source
    scores 1. *)
Lemma score_table_last_row_differs :
  _calculate_layout_score visualization_analysis spaced_use_case_layout
  <> total (score_terms_spec visualization_analysis spaced_use_case_layout).
Proof. vm_compute. discriminate. Qed.

(** C1 (amended): for every analysis record and every layout, the score is
    the sum of eleven terms, each evaluated on its own: the ten first rows
    of the table as written, and +1 when the content type occurs among the
    layout's use cases after the spaces of each use case are replaced by
    underscores.  Several terms can fire for one layout: on [chart_layout]
    five of them do. *)
Theorem score_is_sum_of_eleven_terms :
  (forall (analysis : ContentAnalysis) (layout_info : LayoutInfo),
      length (score_terms analysis layout_info) = 11%nat
      /\ _calculate_layout_score analysis layout_info
         = total (score_terms analysis layout_info))
  /\ score_terms visualization_analysis chart_layout
     = [3; 0; 0; 0; 2; 2; 0; 0; 0; 1; 1]%Z.
Proof.
  split; [|reflexivity].
  intros analysis layout_info. split; [reflexivity | apply score_sum].
Qed.

(** ** Ranking *)

(** C2, as stated, fails: two layouts of equal score come out in the order
    of the catalog, here layout_b before layout_a. *)
Lemma ties_keep_catalog_order :
  ~ ties_by_ascending_id (recommend_layouts tied_layouts (PDict []) 2).
Proof.
  intros H.
  specialize (H 0%nat 1%nat
                ("layout_b", 0%Z, "Unknown Layout: Partial match")
                ("layout_a", 0%Z, "Unknown Layout: Partial match")).
  assert (String.leb "layout_b" "layout_a" = true) as E.
  { apply H; [lia | reflexivity | reflexivity | reflexivity]. }
  vm_compute in E. discriminate.
Qed.

(** C2 (amended): for every catalog, bundle and positive [top_n], the
    result has at most [top_n] entries, its scores are in descending
    order, and the entries of any one score are the first catalog entries
    of that score, in catalog order. *)
Theorem recommend_sorted_and_stable
    (layouts : Layouts) (content : pyval) (top_n : Z) :
  (0 < top_n)%Z ->
  let rs := recommend_layouts layouts content top_n in
  (Z.of_nat (length rs) <= top_n)%Z
  /\ descending rs
  /\ forall s : Z,
       with_score s rs
       `prefix_of` with_score s (scored_layouts layouts (analyze_content content)).
Proof.
  intros Hpos rs. subst rs. unfold recommend_layouts, slice_to.
  replace (0 <=? top_n)%Z with true by (symmetry; apply Z.leb_le; lia).
  split; [|split].
  - pose proof (firstn_le_length (Z.to_nat top_n)
                  (sort_desc score_of (scored_layouts layouts (analyze_content content)))).
    lia.
  - apply firstn_sorted, sort_desc_sorted.
  - intros s. unfold with_score.
    rewrite <- (sort_desc_filter score_of s (scored_layouts layouts (analyze_content content))).
    apply firstn_filter_prefix.
Qed.

Lemma recommend_sorted_and_stable_witness :
  (0 < 2)%Z
  /\ let rs := recommend_layouts (("charts", chart_layout) :: tied_layouts)
                 (PStr "revenue chart") 2 in
     (Z.of_nat (length rs) <= 2)%Z
     /\ descending rs
     /\ forall s : Z,
          with_score s rs
          `prefix_of` with_score s
                        (scored_layouts (("charts", chart_layout) :: tied_layouts)
                           (analyze_content (PStr "revenue chart"))).
Proof.
  split; [lia|].
  apply (recommend_sorted_and_stable (("charts", chart_layout) :: tied_layouts)
           (PStr "revenue chart") 2).
  lia.
Defined.




(** ** The text corpus *)

(** C4, as stated, fails: the string of a nested mapping is not in the
    corpus; the corpus of [nested_bundle] is empty. *)
Lemma nested_leaf_not_in_corpus :
  ~ (forall s : string,
        In s (string_leaves nested_bundle) ->
        contains s (all_text nested_bundle) = true).
Proof.
  intros H. specialize (H "hello" (or_introl eq_refl)).
  vm_compute in H. discriminate.
Qed.

(** C4 (amended): the corpus of a bare string is the string; the corpus of
    a mapping contains, each followed by a space, every string that is a
    value of the mapping and every string item of a list that is a value;
    it depends on the values only, so no key name is added to it; and a
    value that is a nested mapping adds nothing. *)
Theorem corpus_of_top_level_values :
  (forall t : string, all_text (PStr t) = t)
  /\ (forall (items : list (string * pyval)) (s : string),
         In s (top_level_strings items) ->
         contains (s +:+ " ") (all_text (PDict items)) = true
         /\ contains s (all_text (PDict items)) = true)
  /\ (forall (items : list (string * pyval)) (rename : string -> string),
         all_text (PDict (map (fun kv => (rename (fst kv), snd kv)) items))
         = all_text (PDict items))
  /\ (forall (before after : list (string * pyval)) (k : string)
             (inner : list (string * pyval)),
         all_text (PDict (before ++ (k, PDict inner) :: after))
         = all_text (PDict (before ++ after))).
Proof.
  split; [reflexivity|]. split; [|split].
  - intros items s Hin. simpl.
    pose proof (top_level_member s items Hin) as Hsub.
    split; apply contains_Substring; [exact Hsub|].
    destruct Hsub as (pre & post & E). exists pre, (" " +:+ post).
    rewrite E. now rewrite str_app_assoc.
  - intros items rename. simpl. apply items_text_values.
    rewrite map_map. reflexivity.
  - intros before after k inner. simpl.
    now rewrite !items_text_app, items_text_cons.
Qed.

Lemma corpus_of_top_level_values_witness :
  In "two" (top_level_strings (dict_items comparison_bundle))
  /\ contains "two " (all_text comparison_bundle) = true
  /\ contains "two" (all_text comparison_bundle) = true.
Proof.
  assert (In "two" (top_level_strings (dict_items comparison_bundle))) as Hin.
  { simpl. right. right. left. reflexivity. }
  split; [exact Hin|].
  exact (proj1 (proj2 corpus_of_top_level_values)
               (dict_items comparison_bundle) "two" Hin).
Defined.

(** ** Content type, structure and density *)

(** C5: the content type follows the precedence dashboard (chart and table
    keywords both found), data_visualization (charts only), data_table
    (tables only), narrative (high density), comparison, bullet_points
    (list structure), general_content. *)
Theorem content_type_precedence (content : pyval) :
  let a := analyze_content content in
  has_charts a = any_in chart_keywords (lower (all_text content))
  /\ has_tables a = any_in table_keywords (lower (all_text content))
  /\ (has_charts a = true -> has_tables a = true -> content_type a = "dashboard")
  /\ (has_charts a = true -> has_tables a = false ->
      content_type a = "data_visualization")
  /\ (has_charts a = false -> has_tables a = true -> content_type a = "data_table")
  /\ (has_charts a = false -> has_tables a = false ->
      (text_density a = "high" -> content_type a = "narrative")
      /\ (text_density a <> "high" ->
          (structure a = "comparison" -> content_type a = "comparison")
          /\ (structure a = "list" -> content_type a = "bullet_points")
          /\ (structure a <> "comparison" -> structure a <> "list" ->
              content_type a = "general_content"))).
Proof.
  intros a. subst a. unfold analyze_content.
  cbn [has_charts has_tables content_type text_density structure].
  split; [reflexivity|]. split; [reflexivity|].
  generalize (any_in chart_keywords (lower (all_text content))).
  generalize (any_in table_keywords (lower (all_text content))).
  generalize (density_of (word_count (all_text content))).
  generalize (_analyze_structure content (all_text content)).
  intros st d ht hc. unfold _determine_content_type.
  split; [intros -> ->; reflexivity|].
  split; [intros -> ->; reflexivity|].
  split; [intros -> ->; reflexivity|].
  intros -> ->. cbn [andb].
  split; [intros ->; reflexivity|].
  intros Hd. apply String.eqb_neq in Hd. rewrite Hd.
  split; [intros ->; reflexivity|].
  split; [intros ->; reflexivity|].
  intros Hc Hl. apply String.eqb_neq in Hc, Hl. now rewrite Hc, Hl.
Qed.

(** C6: when a key of the mapping is one of left, right, before, after,
    vs, the structure is comparison, whatever the values and the text. *)
Theorem comparison_key_gives_comparison
    (items : list (string * pyval)) (key : string) :
  In key (map fst items) -> In key comparison_keys ->
  structure (analyze_content (PDict items)) = "comparison".
Proof.
  intros Hkey Hcmp. unfold analyze_content. cbn [structure].
  unfold _analyze_structure. cbn [is_dict dict_items andb].
  replace (existsb (key_in comparison_keys) (map fst items)) with true; [reflexivity|].
  symmetry. apply existsb_exists. exists key. split; [exact Hkey|].
  unfold key_in. apply existsb_exists. exists key.
  split; [exact Hcmp | apply String.eqb_refl].
Qed.

Lemma comparison_key_gives_comparison_witness :
  In "left" (map fst (dict_items comparison_bundle))
  /\ In "left" comparison_keys
  /\ structure (analyze_content comparison_bundle) = "comparison".
Proof.
  assert (In "left" (map fst (dict_items comparison_bundle))) as H1
      by (left; reflexivity).
  assert (In "left" comparison_keys) as H2 by (left; reflexivity).
  split; [exact H1|]. split; [exact H2|].
  exact (comparison_key_gives_comparison (dict_items comparison_bundle) "left" H1 H2).
Defined.

(** C7: with [w] the number of words of the corpus, the density is low for
    [w < 20], medium for [20 <= w < 100] and high for [w >= 100]; corpora
    of 19, 20, 99 and 100 words give low, medium, medium and high. *)
Theorem density_boundaries :
  (forall content : pyval,
      let w := word_count (all_text content) in
      let d := text_density (analyze_content content) in
      ((w < 20)%nat -> d = "low")
      /\ ((20 <= w < 100)%nat -> d = "medium")
      /\ ((100 <= w)%nat -> d = "high"))
  /\ (forall n : nat, word_count (all_text (PStr (words n))) = n)
  /\ text_density (analyze_content (PStr (words 19))) = "low"
  /\ text_density (analyze_content (PStr (words 20))) = "medium"
  /\ text_density (analyze_content (PStr (words 99))) = "medium"
  /\ text_density (analyze_content (PStr (words 100))) = "high".
Proof.
  split.
  - intros content w d. subst w d. unfold analyze_content. cbn [text_density].
    unfold density_of.
    destruct (Nat.ltb_spec (word_count (all_text content)) 20);
      destruct (Nat.ltb_spec (word_count (all_text content)) 100);
      repeat split; intros; try reflexivity; lia.
  - split; [intros n; apply word_count_words|].
    repeat split; vm_compute; reflexivity.
Qed.

(** ** When the analysis returns *)

Lemma unread_values_no_list (values : list pyval) :
  forallb unread_value values = true -> existsb is_list values = false.
Proof.
  induction values as [|v values IH]; [reflexivity|].
  simpl. rewrite andb_true_iff. intros [Hv Hr]. rewrite (IH Hr).
  destruct v; simpl in Hv; try discriminate; reflexivity.
Qed.

Lemma first_error_map_none {A : Type} (f : A -> option error) (l : list A) :
  first_error (map f l) = None <-> forall x, In x l -> f x = None.
Proof.
  induction l as [|y l IH]; simpl.
  - split; [intros _ x [] | reflexivity].
  - destruct (f y) as [e|] eqn:E.
    + split; [discriminate|]. intros H. rewrite <- E. apply H. now left.
    + rewrite IH. split.
      * intros H x [<-|Hx]; [exact E | now apply H].
      * intros H x Hx. apply H. now right.
Qed.

(** The analysis returns exactly when no item of a list value makes
    [str] raise. *)
Lemma content_error_none (limits : Limits) (items : list (string * pyval)) :
  content_error limits (PDict items) = None
  <-> forall (k : string) (l : list pyval) (item : pyval),
        In (k, PList l) items -> In item l -> str_error limits item = None.
Proof.
  unfold content_error. rewrite first_error_map_none. split.
  - intros H k l item Hin Hitem. specialize (H (k, PList l) Hin).
    simpl in H. unfold value_error in H. rewrite first_error_map_none in H.
    now apply H.
  - intros H [k v] Hin. simpl. destruct v; try reflexivity.
    unfold value_error. rewrite first_error_map_none.
    intros item Hitem. now apply (H k items0).
Qed.

Lemma call_returns_iff (limits : Limits) (content : pyval) :
  call_analyze_content limits content = Returns (analyze_content content)
  <-> content_error limits content = None.
Proof.
  unfold call_analyze_content. destruct (content_error limits content).
  - split; discriminate.
  - split; reflexivity.
Qed.

Lemma string_items_no_error (limits : Limits) (items : list (string * pyval)) :
  string_items_only items = true -> content_error limits (PDict items) = None.
Proof.
  intros Hs. apply content_error_none. intros k l item Hin Hitem.
  unfold string_items_only in Hs. rewrite forallb_forall in Hs.
  specialize (Hs (k, PList l) Hin). simpl in Hs.
  rewrite forallb_forall in Hs. specialize (Hs item Hitem).
  destruct item; try discriminate. reflexivity.
Qed.

Lemma unread_values_no_error (limits : Limits) (items : list (string * pyval)) :
  forallb unread_value (map snd items) = true ->
  content_error limits (PDict items) = None.
Proof.
  intros Hun. apply content_error_none. intros k l item Hin _.
  rewrite forallb_forall in Hun.
  assert (In (PList l) (map snd items)) as Hv
      by (apply in_map_iff; exists (k, PList l); auto).
  specialize (Hun _ Hv). discriminate.
Qed.

Lemma repr_error_nested (limits : Limits) (depth n : nat) :
  (depth <= n)%nat -> repr_error limits depth (nested n) = Some RecursionError.
Proof.
  revert n. induction depth as [|d IH]; intros n Hle.
  - destruct n; reflexivity.
  - destruct n as [|n]; [lia|]. simpl. rewrite IH by lia. reflexivity.
Qed.

Lemma too_long_at_limit (limits : Limits) :
  max_str_digits limits <> 0%nat ->
  too_long limits (10 ^ Z.of_nat (max_str_digits limits)) = true.
Proof.
  intros Hne. unfold too_long.
  apply andb_true_iff. split.
  - apply negb_true_iff, Nat.eqb_neq, Hne.
  - apply Z.leb_le. rewrite Z.abs_eq; [lia|]. apply Z.pow_nonneg. lia.
Qed.

(** C8, as stated, fails: a list value that holds an integer of 4301
    digits makes the [str(item)] of line 46 raise [ValueError], so the
    call returns no record. *)
Lemma huge_integer_item_raises :
  call_analyze_content cpython_limits huge_item_bundle = Raises ValueError
  /\ ~ (exists a, call_analyze_content cpython_limits huge_item_bundle = Returns a).
Proof.
  assert (call_analyze_content cpython_limits huge_item_bundle = Raises ValueError)
    as E by (vm_compute; reflexivity).
  split; [exact E|]. intros [a H]. rewrite E in H. discriminate.
Qed.

(** C8 (amended): whatever the limits of the interpreter, the analysis
    returns a record, raising nothing, exactly when [str] succeeds on every
    item of every list value.  So it returns for every value that is not a
    mapping (a bare string among them), for the empty mapping, and for
    every mapping whose list items are all strings, values that are
    neither strings nor lists (nested mappings among them) being ignored.
    The empty mapping gives density low, no data point and the type
    general_content; a value that is neither a mapping nor a string is
    analysed like the empty mapping; a mapping whose values are neither
    strings nor lists has an empty corpus, so density low, no data point,
    no keyword flag, and the type decided by its keys alone; the count of
    data points is reached with fuel equal to the length of the corpus.
    It is not total on other shapes: a list item that is an integer at the
    digit limit raises [ValueError], and one nested as deep as the
    recursion allows raises [RecursionError]. *)
Theorem analyze_returns_unless_str_raises (limits : Limits) :
  (forall items : list (string * pyval),
      call_analyze_content limits (PDict items)
      = Returns (analyze_content (PDict items))
      <-> forall (k : string) (l : list pyval) (item : pyval),
            In (k, PList l) items -> In item l -> str_error limits item = None)
  /\ (forall content : pyval,
         is_dict content = false ->
         call_analyze_content limits content = Returns (analyze_content content))
  /\ (forall items : list (string * pyval),
         string_items_only items = true ->
         call_analyze_content limits (PDict items)
         = Returns (analyze_content (PDict items)))
  /\ (call_analyze_content limits (PDict []) = Returns (analyze_content (PDict []))
      /\ text_density (analyze_content (PDict [])) = "low"
      /\ data_points (analyze_content (PDict [])) = 0%Z
      /\ content_type (analyze_content (PDict [])) = "general_content")
  /\ (forall content : pyval,
         is_dict content = false -> (forall s, content <> PStr s) ->
         analyze_content content = analyze_content (PDict []))
  /\ (forall items : list (string * pyval),
         forallb unread_value (map snd items) = true ->
         let a := analyze_content (PDict items) in
         call_analyze_content limits (PDict items) = Returns a
         /\ all_text (PDict items) = EmptyString
         /\ text_density a = "low"
         /\ data_points a = 0%Z
         /\ has_charts a = false /\ has_tables a = false /\ has_images a = false
         /\ key_metrics a = []
         /\ content_type a
            = if existsb (key_in comparison_keys) (map fst items)
              then "comparison" else "general_content")
  /\ (forall (content : pyval) (fuel : nat),
         (String.length (all_text content) <= fuel)%nat ->
         data_points (analyze_content content)
         = Z.of_nat (count_matches fuel (all_text content)))
  /\ (forall k : string,
         max_str_digits limits <> 0%nat ->
         call_analyze_content limits
           (PDict [(k, PList [PInt (10 ^ Z.of_nat (max_str_digits limits))])])
         = Raises ValueError)
  /\ (forall k : string,
         call_analyze_content limits (PDict [(k, PList [nested (max_nesting limits)])])
         = Raises RecursionError).
Proof.
  split; [|split; [|split; [|split; [|split; [|split; [|split; [|split]]]]]]].
  - intros items. rewrite call_returns_iff. apply content_error_none.
  - intros content Hd. apply call_returns_iff.
    destruct content; try reflexivity. discriminate.
  - intros items Hs. apply call_returns_iff, string_items_no_error, Hs.
  - repeat split.
  - intros content Hd Hs. destruct content; try reflexivity.
    + now elim (Hs s).
    + discriminate.
  - intros items Hun a. subst a.
    split; [apply call_returns_iff, unread_values_no_error, Hun|].
    assert (all_text (PDict items) = EmptyString) as E
        by (apply items_text_unread, Hun).
    unfold analyze_content. rewrite E.
    cbn [text_density data_points has_charts has_tables has_images key_metrics
         content_type].
    repeat (split; [reflexivity|]).
    unfold _analyze_structure. cbn [is_dict dict_items andb].
    rewrite (unread_values_no_list _ Hun).
    destruct (existsb (key_in comparison_keys) (map fst items)); reflexivity.
  - intros content fuel Hfuel. unfold analyze_content. cbn [data_points].
    now rewrite (count_matches_fuel fuel).
  - intros k Hne. unfold call_analyze_content, content_error, value_error, str_error.
    cbn [map snd first_error repr_error]. now rewrite (too_long_at_limit limits Hne).
  - intros k. unfold call_analyze_content, content_error, value_error.
    cbn [map snd first_error].
    replace (str_error limits (nested (max_nesting limits)))
      with (Some RecursionError); [reflexivity|].
    symmetry. unfold str_error.
    destruct (nested (max_nesting limits)) eqn:E;
      try (destruct (max_nesting limits); discriminate E).
    rewrite <- E. apply repr_error_nested. lia.
Qed.

Lemma analyze_returns_unless_str_raises_witness :
  string_items_only (dict_items comparison_bundle) = true
  /\ call_analyze_content cpython_limits comparison_bundle
     = Returns (analyze_content comparison_bundle).
Proof.
  assert (string_items_only (dict_items comparison_bundle) = true) as H
      by reflexivity.
  split; [exact H|].
  exact (proj1 (proj2 (proj2 (analyze_returns_unless_str_raises cpython_limits)))
               (dict_items comparison_bundle) H).
Defined.

(** ** Layout details *)

Lemma lookup_layout_absent (layouts : Layouts) (layout_id : string) :
  ~ In layout_id (map fst layouts) -> lookup_layout layouts layout_id = None.
Proof.
  induction layouts as [|[k layout] layouts IH]; [reflexivity|].
  simpl. intros Hnot. destruct (String.eqb_spec k layout_id) as [->|_].
  - elim Hnot. now left.
  - apply IH. intros Hin. apply Hnot. now right.
Qed.

(** C9, as stated, fails: for an id that is not in the catalog the call
    raises no NotFound error; it returns a dict. *)
Lemma absent_id_raises_nothing :
  call_get_layout_details tied_layouts "layout_z" <> Raises (NotFound "layout_z").
Proof. vm_compute. discriminate. Qed.

(** C9 (amended): for every layout id absent from the catalog,
    [get_layout_details] returns the one-key mapping
    [{"error": "Layout <id> not found"}], whose message carries the
    requested id; nothing is raised and no other layout is substituted. *)
Theorem absent_layout_returns_error_dict (layouts : Layouts) (layout_id : string) :
  ~ In layout_id (map fst layouts) ->
  call_get_layout_details layouts layout_id
  = Returns (ErrorDict ("Layout " +:+ layout_id +:+ " not found"))
  /\ Substring layout_id ("Layout " +:+ layout_id +:+ " not found").
Proof.
  intros Hnot. split.
  - unfold call_get_layout_details, get_layout_details.
    now rewrite (lookup_layout_absent layouts layout_id Hnot).
  - exists "Layout ", " not found". reflexivity.
Qed.

Lemma absent_layout_returns_error_dict_witness :
  ~ In "layout_z" (map fst tied_layouts)
  /\ call_get_layout_details tied_layouts "layout_z"
     = Returns (ErrorDict "Layout layout_z not found").
Proof.
  assert (~ In "layout_z" (map fst tied_layouts)) as Hnot.
  { simpl. intros [H|[H|[]]]; discriminate H. }
  split; [exact Hnot|].
  exact (proj1 (absent_layout_returns_error_dict tied_layouts "layout_z" Hnot)).
Defined.

(** C10: in the summary of any layout, [total_count] is the number of
    placeholders, the counts of [by_type] and those of [by_column] each
    add up to [total_count], a placeholder without a column tag is counted
    under none (and one without a type under unknown), and
    [required_count] is the number of required placeholders, between 0 and
    [total_count]. *)
Theorem placeholder_summary_counts (layout : LayoutInfo) :
  let s := _summarize_placeholders layout in
  let phs := placeholder_values layout in
  total_count s = length phs
  /\ counts_total (by_type s) = total_count s
  /\ counts_total (by_column s) = total_count s
  /\ (0 <= required_count s <= total_count s)%nat
  /\ required_count s
     = length (List.filter (fun p => default false (ph_required p)) phs)
  /\ (forall tag : string,
         default 0%nat (by_type s !! tag) = tagged ph_type "unknown" tag phs)
  /\ (forall tag : string,
         default 0%nat (by_column s !! tag) = tagged ph_column "none" tag phs).
Proof.
  intros s phs. subst s phs. unfold _summarize_placeholders, placeholder_values.
  set (placeholders := default [] (l_placeholders layout)).
  destruct (summarize_loop (map snd placeholders)
              {| total_count := length placeholders; by_type := ∅;
                 by_column := ∅; required_count := 0 |})
    as (H1 & H2 & H3 & H4 & H5 & H6).
  cbv zeta in *. cbn [total_count by_type by_column required_count] in *.
  unfold counts_total in H2, H3 |- *. rewrite map_fold_empty in H2, H3.
  rewrite length_map in *.
  pose proof (filter_length_le (fun p => default false (ph_required p))
                (map snd placeholders)) as Hle.
  rewrite length_map in Hle.
  repeat split; try lia.
  - intros tag. rewrite H5, lookup_empty. reflexivity.
  - intros tag. rewrite H6, lookup_empty. reflexivity.
Qed.

(** * Further properties *)

(** ** The ranking as a whole *)

Section SortingPerm.
Context {A : Type} (key : A -> Z).

Lemma insert_desc_perm (x : A) (l : list A) :
  Permutation (insert_desc key x l) (x :: l).
Proof using Type.
  induction l as [|y l IH]; simpl; [reflexivity|].
  destruct (key x <? key y)%Z; [|reflexivity].
  rewrite IH. apply perm_swap.
Qed.

Lemma sort_desc_perm (l : list A) : Permutation (sort_desc key l) l.
Proof using Type.
  induction l as [|x l IH]; simpl; [reflexivity|].
  rewrite insert_desc_perm. now apply perm_skip.
Qed.
End SortingPerm.

Lemma slice_to_firstn {A : Type} (l : list A) (n : Z) :
  exists k : nat, slice_to l n = firstn k l.
Proof. unfold slice_to. destruct (0 <=? n)%Z; eauto. Qed.

Lemma In_firstn {A : Type} (x : A) (k : nat) (l : list A) :
  In x (firstn k l) -> In x l.
Proof.
  intros H. rewrite <- (firstn_skipn k l). apply in_or_app. now left.
Qed.

Lemma scored_layouts_ids (layouts : Layouts) (analysis : ContentAnalysis) :
  map id_of (scored_layouts layouts analysis) = layout_ids layouts.
Proof.
  unfold scored_layouts, layout_ids. rewrite map_map. reflexivity.
Qed.

Lemma scored_layouts_length (layouts : Layouts) (analysis : ContentAnalysis) :
  length (scored_layouts layouts analysis) = length layouts.
Proof. unfold scored_layouts. apply length_map. Qed.

Lemma recommend_In_scored (layouts : Layouts) (content : pyval) (top_n : Z)
    (r : Recommendation) :
  In r (recommend_layouts layouts content top_n) ->
  In r (scored_layouts layouts (analyze_content content)).
Proof.
  unfold recommend_layouts.
  destruct (slice_to_firstn
              (sort_desc score_of (scored_layouts layouts (analyze_content content)))
              top_n) as [k ->].
  intros H. apply In_firstn in H.
  eapply Permutation_in; [apply sort_desc_perm | exact H].
Qed.

(** X1: for [top_n >= 0] the result has exactly [min(top_n, len(layouts))]
    entries. *)
Theorem recommend_length (layouts : Layouts) (content : pyval) (top_n : Z) :
  (0 <= top_n)%Z ->
  length (recommend_layouts layouts content top_n)
  = Nat.min (Z.to_nat top_n) (length layouts).
Proof.
  intros Hn. unfold recommend_layouts, slice_to.
  replace (0 <=? top_n)%Z with true by (symmetry; apply Z.leb_le; lia).
  now rewrite length_take, sort_desc_length, scored_layouts_length.
Qed.

Lemma recommend_length_witness :
  (0 <= 2)%Z
  /\ length (recommend_layouts ranked_layouts (PStr "revenue chart") 2)
     = Nat.min (Z.to_nat 2) (length ranked_layouts).
Proof.
  split; [lia|].
  apply (recommend_length ranked_layouts (PStr "revenue chart") 2). lia.
Defined.

(** X2: whatever [top_n] is, every returned tuple is a layout of the
    catalog under its own id, with the score and the reason that the
    scoring functions give that layout for the analysed content. *)
Theorem recommend_entries_from_catalog
    (layouts : Layouts) (content : pyval) (top_n : Z) (r : Recommendation) :
  In r (recommend_layouts layouts content top_n) ->
  exists layout : LayoutInfo,
    In (id_of r, layout) layouts
    /\ score_of r = _calculate_layout_score (analyze_content content) layout
    /\ snd r = _generate_recommendation_reason (analyze_content content) layout
                 (score_of r).
Proof.
  intros H. apply recommend_In_scored in H.
  unfold scored_layouts in H. apply in_map_iff in H as ([k layout] & <- & Hin).
  exists layout. repeat split. exact Hin.
Qed.

Lemma recommend_entries_from_catalog_witness :
  In ("layout_b", 0%Z, "Unknown Layout: Partial match")
     (recommend_layouts tied_layouts (PDict []) 1)
  /\ exists layout : LayoutInfo,
       In ("layout_b", layout) tied_layouts
       /\ 0%Z = _calculate_layout_score (analyze_content (PDict [])) layout
       /\ "Unknown Layout: Partial match"
          = _generate_recommendation_reason (analyze_content (PDict [])) layout 0.
Proof.
  assert (In ("layout_b", 0%Z, "Unknown Layout: Partial match")
             (recommend_layouts tied_layouts (PDict []) 1)) as Hin
      by (left; reflexivity).
  split; [exact Hin|].
  exact (recommend_entries_from_catalog tied_layouts (PDict []) 1 _ Hin).
Defined.

(** X3: when [top_n] is at least the size of the catalog, the result is
    the whole catalog reordered: every layout is ranked exactly once. *)
Theorem recommend_all_is_permutation
    (layouts : Layouts) (content : pyval) (top_n : Z) :
  (Z.of_nat (length layouts) <= top_n)%Z ->
  Permutation (recommend_layouts layouts content top_n)
              (scored_layouts layouts (analyze_content content))
  /\ Permutation (map id_of (recommend_layouts layouts content top_n))
                 (layout_ids layouts).
Proof.
  intros Hn.
  assert (Permutation (recommend_layouts layouts content top_n)
                      (scored_layouts layouts (analyze_content content))) as HP.
  { unfold recommend_layouts, slice_to.
    replace (0 <=? top_n)%Z with true by (symmetry; apply Z.leb_le; lia).
    rewrite firstn_all2; [apply sort_desc_perm|].
    rewrite sort_desc_length, scored_layouts_length. lia. }
  split; [exact HP|].
  rewrite <- (scored_layouts_ids layouts (analyze_content content)).
  now apply Permutation_map.
Qed.

Lemma recommend_all_is_permutation_witness :
  (Z.of_nat (length ranked_layouts) <= 3)%Z
  /\ Permutation (map id_of (recommend_layouts ranked_layouts (PStr "revenue chart") 3))
                 (layout_ids ranked_layouts).
Proof.
  split; [simpl; lia|].
  apply (recommend_all_is_permutation ranked_layouts (PStr "revenue chart") 3).
  simpl. lia.
Defined.

(** X4: a larger [top_n] only appends: for [0 <= n <= m] the result for
    [n] is the beginning of the result for [m]. *)
Theorem recommend_prefix_monotone
    (layouts : Layouts) (content : pyval) (n m : Z) :
  (0 <= n <= m)%Z ->
  recommend_layouts layouts content n `prefix_of` recommend_layouts layouts content m.
Proof.
  intros [Hn Hm]. unfold recommend_layouts, slice_to.
  replace (0 <=? n)%Z with true by (symmetry; apply Z.leb_le; lia).
  replace (0 <=? m)%Z with true by (symmetry; apply Z.leb_le; lia).
  set (sorted := sort_desc score_of (scored_layouts layouts (analyze_content content))).
  replace (firstn (Z.to_nat n) sorted)
    with (firstn (Z.to_nat n) (firstn (Z.to_nat m) sorted)).
  - apply prefix_take.
  - rewrite firstn_firstn. f_equal. lia.
Qed.

Lemma recommend_prefix_monotone_witness :
  (0 <= 1 <= 3)%Z
  /\ recommend_layouts ranked_layouts (PStr "revenue chart") 1
     `prefix_of` recommend_layouts ranked_layouts (PStr "revenue chart") 3.
Proof.
  split; [lia|].
  apply (recommend_prefix_monotone ranked_layouts (PStr "revenue chart") 1 3). lia.
Defined.

Lemma filter_head_split {A : Type} (p : A -> bool) (l : list A) (x : A) (t : list A) :
  List.filter p l = x :: t ->
  exists l1 l2, l = l1 ++ x :: l2 /\ Forall (fun y => p y = false) l1.
Proof.
  induction l as [|y l IH]; simpl; [discriminate|].
  destruct (p y) eqn:E.
  - intros [= -> _]. exists [], l. split; [reflexivity | constructor].
  - intros H. destruct (IH H) as (l1 & l2 & -> & Hall).
    exists (y :: l1), l2. split; [reflexivity | now constructor].
Qed.

Lemma map_app_cons_inv {A B : Type} (f : A -> B) (l : list A) (l1 l2 : list B) (y : B) :
  map f l = l1 ++ y :: l2 ->
  exists a x b, l = a ++ x :: b /\ map f a = l1 /\ f x = y /\ map f b = l2.
Proof.
  revert l. induction l1 as [|z l1 IH]; intros [|x l] H; simpl in H; try discriminate.
  - injection H as Hx Hl. exists [], x, l. repeat split; assumption.
  - injection H as Hx Hl. destruct (IH l Hl) as (a & x' & b & -> & Ha & Hx' & Hb).
    exists (x :: a), x', b. simpl. repeat split; try assumption.
    now rewrite Hx, Ha.
Qed.

(** X5: with a catalog that is not empty and [top_n >= 1], the first
    recommendation is a layout of the highest score, and among the layouts
    of that score the one the catalog stores first: every layout stored
    before it scores strictly less, every layout after it scores at most
    as much. *)
Theorem recommend_first_is_best
    (layouts : Layouts) (content : pyval) (top_n : Z) :
  layouts <> [] -> (1 <= top_n)%Z ->
  let analysis := analyze_content content in
  exists before id layout after rest,
    layouts = before ++ (id, layout) :: after
    /\ recommend_layouts layouts content top_n
       = (id, _calculate_layout_score analysis layout,
          _generate_recommendation_reason analysis layout
            (_calculate_layout_score analysis layout)) :: rest
    /\ Forall (fun e => (entry_score analysis e
                         < _calculate_layout_score analysis layout)%Z) before
    /\ Forall (fun e => (entry_score analysis e
                         <= _calculate_layout_score analysis layout)%Z) after.
Proof.
  intros Hne Hn analysis.
  set (scored := scored_layouts layouts analysis).
  pose proof (sort_desc_sorted score_of scored) as Hsorted.
  pose proof (sort_desc_perm score_of scored) as Hperm.
  pose proof (sort_desc_length score_of scored) as Hlen.
  destruct (sort_desc score_of scored) as [|r rest0] eqn:Esorted.
  { unfold scored in Hlen. rewrite scored_layouts_length in Hlen.
    destruct layouts; [now elim Hne | discriminate]. }
  assert (forall x, In x scored -> (score_of x <= score_of r)%Z) as Hmax.
  { intros x Hx. apply (Permutation_in _ (Permutation_sym Hperm)) in Hx.
    destruct Hx as [<-|Hx]; [lia|].
    inversion Hsorted as [|? ? _ Hall]; subst.
    rewrite Forall_forall in Hall. apply Hall, list_elem_of_In, Hx. }
  pose proof (sort_desc_filter score_of (score_of r) scored) as Hstable.
  rewrite Esorted in Hstable. simpl in Hstable. rewrite Z.eqb_refl in Hstable.
  symmetry in Hstable.
  destruct (filter_head_split _ _ _ _ Hstable) as (l1 & l2 & Escored & Hl1).
  unfold scored, scored_layouts in Escored.
  destruct (map_app_cons_inv _ _ _ _ _ Escored)
    as (before & [id layout] & after & -> & Hb & Hr & Ha).
  exists before, id, layout, after, (firstn (Z.to_nat top_n - 1) rest0).
  assert (score_of r = _calculate_layout_score analysis layout) as Hscore
      by (rewrite <- Hr; reflexivity).
  split; [reflexivity|]. split; [|split].
  - unfold recommend_layouts, slice_to. fold analysis. fold scored. rewrite Esorted.
    replace (0 <=? top_n)%Z with true by (symmetry; apply Z.leb_le; lia).
    destruct (Z.to_nat top_n) as [|k] eqn:Ek; [lia|].
    simpl. rewrite Nat.sub_0_r. now rewrite <- Hr.
  - rewrite <- Hscore. apply Forall_forall. intros e He.
    apply list_elem_of_In in He.
    set (fe := (fst e, _calculate_layout_score analysis (snd e),
                _generate_recommendation_reason analysis (snd e)
                  (_calculate_layout_score analysis (snd e))) : Recommendation).
    assert (In fe l1) as Hin1 by (rewrite <- Hb; apply in_map_iff; exists e; auto).
    assert (score_of fe <= score_of r)%Z as Hle.
    { apply Hmax. unfold scored, scored_layouts.
      apply in_map_iff. exists e. split; [reflexivity|].
      apply in_or_app. now left. }
    rewrite Forall_forall in Hl1.
    specialize (Hl1 fe (proj2 (list_elem_of_In _ _) Hin1)).
    apply Z.eqb_neq in Hl1. unfold entry_score. change (score_of fe) with
      (_calculate_layout_score analysis (snd e)) in Hl1, Hle. lia.
  - rewrite <- Hscore. apply Forall_forall. intros e He.
    apply list_elem_of_In in He. unfold entry_score.
    change (_calculate_layout_score analysis (snd e)) with
      (score_of (fst e, _calculate_layout_score analysis (snd e),
                 _generate_recommendation_reason analysis (snd e)
                   (_calculate_layout_score analysis (snd e)))).
    apply Hmax. unfold scored, scored_layouts.
    apply in_map_iff. exists e. split; [reflexivity|].
    apply in_or_app. right. now right.
Qed.

Lemma recommend_first_is_best_witness :
  tied_layouts <> [] /\ (1 <= 1)%Z
  /\ exists before id layout after rest,
       tied_layouts = before ++ (id, layout) :: after
       /\ recommend_layouts tied_layouts (PStr "revenue chart") 1
          = (id, _calculate_layout_score (analyze_content (PStr "revenue chart")) layout,
             _generate_recommendation_reason (analyze_content (PStr "revenue chart")) layout
               (_calculate_layout_score (analyze_content (PStr "revenue chart")) layout))
            :: rest
       /\ Forall (fun e => (entry_score (analyze_content (PStr "revenue chart")) e
                            < _calculate_layout_score
                                (analyze_content (PStr "revenue chart")) layout)%Z) before
       /\ Forall (fun e => (entry_score (analyze_content (PStr "revenue chart")) e
                            <= _calculate_layout_score
                                 (analyze_content (PStr "revenue chart")) layout)%Z) after.
Proof.
  assert (tied_layouts <> []) as Hne by discriminate.
  assert (1 <= 1)%Z as Hn by lia.
  split; [exact Hne|]. split; [exact Hn|].
  exact (recommend_first_is_best tied_layouts (PStr "revenue chart") 1 Hne Hn).
Defined.

(** ** Looking layouts up *)

Lemma lookup_layout_present (layouts : Layouts) (layout_id : string) :
  In layout_id (layout_ids layouts) ->
  exists layout, lookup_layout layouts layout_id = Some layout
                 /\ In (layout_id, layout) layouts.
Proof.
  induction layouts as [|[k layout] layouts IH]; [intros []|].
  simpl. intros Hin. destruct (String.eqb_spec k layout_id) as [->|Hne].
  - exists layout. split; [reflexivity | now left].
  - destruct Hin as [E|Hin]; [now elim Hne|].
    destruct (IH Hin) as (l & Hl & Hin'). exists l. split; [exact Hl | now right].
Qed.

Lemma lookup_layout_unique (layouts : Layouts) (layout_id : string) (layout : LayoutInfo) :
  NoDup (layout_ids layouts) -> In (layout_id, layout) layouts ->
  lookup_layout layouts layout_id = Some layout.
Proof.
  induction layouts as [|[k l] layouts IH]; [intros _ []|].
  simpl. intros Hnd Hin. apply NoDup_cons in Hnd as [Hk Hnd].
  destruct (String.eqb_spec k layout_id) as [->|Hne].
  - destruct Hin as [[= ->]|Hin]; [reflexivity|].
    elim Hk. apply list_elem_of_In. apply in_map_iff.
    exists (layout_id, layout). split; [reflexivity | exact Hin].
  - destruct Hin as [[= E _]|Hin]; [now elim Hne|]. now apply IH.
Qed.

(** X6: in a catalog whose ids are distinct, [get_layout_details] of a
    stored id returns that layout, with [ai_optimized] set and with the
    summary of its own placeholders. *)
Theorem layout_details_of_stored_layout
    (layouts : Layouts) (layout_id : string) (layout : LayoutInfo) :
  NoDup (layout_ids layouts) -> In (layout_id, layout) layouts ->
  get_layout_details layouts layout_id
  = EnhancedLayout layout true (_summarize_placeholders layout).
Proof.
  intros Hnd Hin. unfold get_layout_details.
  now rewrite (lookup_layout_unique layouts layout_id layout Hnd Hin).
Qed.

Lemma layout_details_of_stored_layout_witness :
  NoDup (layout_ids ranked_layouts)
  /\ In ("charts", chart_layout) ranked_layouts
  /\ get_layout_details ranked_layouts "charts"
     = EnhancedLayout chart_layout true (_summarize_placeholders chart_layout).
Proof.
  assert (NoDup (layout_ids ranked_layouts)) as Hnd.
  { apply NoDup_ListNoDup. repeat constructor; simpl; intuition discriminate. }
  assert (In ("charts", chart_layout) ranked_layouts) as Hin by (left; reflexivity).
  split; [exact Hnd|]. split; [exact Hin|].
  exact (layout_details_of_stored_layout ranked_layouts "charts" chart_layout Hnd Hin).
Defined.

(** X7: [get_layout_details] returns the error mapping exactly for the ids
    that the catalog does not hold; for every other id it returns an
    enhanced layout. *)
Theorem layout_details_error_iff_absent (layouts : Layouts) (layout_id : string) :
  ((exists message, get_layout_details layouts layout_id = ErrorDict message)
   <-> ~ In layout_id (layout_ids layouts))
  /\ ((exists layout, get_layout_details layouts layout_id
                      = EnhancedLayout layout true (_summarize_placeholders layout)
                      /\ In (layout_id, layout) layouts)
      <-> In layout_id (layout_ids layouts)).
Proof.
  unfold get_layout_details. split; split.
  - intros [message H] Hin.
    destruct (lookup_layout_present layouts layout_id Hin) as (l & Hl & _).
    rewrite Hl in H. discriminate.
  - intros Hnot. rewrite (lookup_layout_absent layouts layout_id Hnot). eauto.
  - intros (layout & _ & Hin). apply in_map_iff.
    exists (layout_id, layout). split; [reflexivity | exact Hin].
  - intros Hin. destruct (lookup_layout_present layouts layout_id Hin) as (l & Hl & Hin').
    rewrite Hl. eauto.
Qed.

(** X8: every id that [recommend_layouts] returns is an id that
    [get_layout_details] resolves: the details of a recommended layout are
    never the error mapping. *)
Theorem recommended_layout_has_details
    (layouts : Layouts) (content : pyval) (top_n : Z) (r : Recommendation) :
  In r (recommend_layouts layouts content top_n) ->
  exists layout,
    get_layout_details layouts (id_of r)
    = EnhancedLayout layout true (_summarize_placeholders layout)
    /\ In (id_of r, layout) layouts.
Proof.
  intros H. apply recommend_In_scored in H.
  unfold scored_layouts in H. apply in_map_iff in H as ([k layout0] & <- & Hin).
  change (id_of _) with k.
  assert (In k (layout_ids layouts)) as Hk.
  { apply in_map_iff. exists (k, layout0). split; [reflexivity | exact Hin]. }
  destruct (lookup_layout_present layouts k Hk) as (layout & Hl & Hin').
  exists layout. unfold get_layout_details. rewrite Hl. split; [reflexivity | exact Hin'].
Qed.

Lemma recommended_layout_has_details_witness :
  In ("layout_b", 0%Z, "Unknown Layout: Partial match")
     (recommend_layouts tied_layouts (PDict []) 1)
  /\ exists layout,
       get_layout_details tied_layouts "layout_b"
       = EnhancedLayout layout true (_summarize_placeholders layout)
       /\ In ("layout_b", layout) tied_layouts.
Proof.
  assert (In ("layout_b", 0%Z, "Unknown Layout: Partial match")
             (recommend_layouts tied_layouts (PDict []) 1)) as Hin
      by (left; reflexivity).
  split; [exact Hin|].
  exact (recommended_layout_has_details tied_layouts (PDict []) 1 _ Hin).
Defined.

(** X9: when the ids of the catalog are distinct, so are the ids of the
    result, for every [top_n]. *)
Theorem recommend_ids_distinct (layouts : Layouts) (content : pyval) (top_n : Z) :
  NoDup (layout_ids layouts) ->
  NoDup (map id_of (recommend_layouts layouts content top_n)).
Proof.
  intros Hnd. unfold recommend_layouts.
  destruct (slice_to_firstn
              (sort_desc score_of (scored_layouts layouts (analyze_content content)))
              top_n) as [k ->].
  rewrite <- firstn_map.
  eapply sublist_NoDup; [|apply sublist_take].
  assert (Permutation
            (map id_of (sort_desc score_of
                          (scored_layouts layouts (analyze_content content))))
            (layout_ids layouts)) as HP.
  { rewrite <- (scored_layouts_ids layouts (analyze_content content)).
    apply Permutation_map, sort_desc_perm. }
  rewrite HP. exact Hnd.
Qed.

Lemma recommend_ids_distinct_witness :
  NoDup (layout_ids ranked_layouts)
  /\ NoDup (map id_of (recommend_layouts ranked_layouts (PStr "revenue chart") 2)).
Proof.
  assert (NoDup (layout_ids ranked_layouts)) as Hnd.
  { apply NoDup_ListNoDup. repeat constructor; simpl; intuition discriminate. }
  split; [exact Hnd|].
  exact (recommend_ids_distinct ranked_layouts (PStr "revenue chart") 2 Hnd).
Defined.

(** ** The range of the score *)

Lemma bonus_pair (c1 c2 k1 k2 : bool) (n : Z) :
  (c1 = true -> c2 = false) ->
  (bonus (c1 && k1) n + bonus (c2 && k2) n = 0
   \/ bonus (c1 && k1) n + bonus (c2 && k2) n = n)%Z.
Proof.
  intros H. unfold bonus.
  destruct c1; [rewrite (H eq_refl)|]; destruct k1, k2; try destruct c2; simpl; lia.
Qed.

Lemma bonus_triple (c1 c2 c3 k1 k2 k3 : bool) (n : Z) :
  (c1 = true -> c2 = false /\ c3 = false) -> (c2 = true -> c3 = false) ->
  ((bonus (c1 && k1) n + bonus (c2 && k2) n + bonus (c3 && k3) n = 0
    /\ (n <> 0 -> c1 && k1 = false /\ c2 && k2 = false /\ c3 && k3 = false))
   \/ (bonus (c1 && k1) n + bonus (c2 && k2) n + bonus (c3 && k3) n = n
       /\ (c1 = true \/ c2 = true \/ c3 = true)))%Z.
Proof.
  intros H1 H2. unfold bonus.
  destruct c1; [destruct (H1 eq_refl) as [-> ->]|];
    [|destruct c2; [rewrite (H2 eq_refl)|]];
    destruct k1, k2, k3; try destruct c3; simpl; intuition lia.
Qed.

(** The five blocks of [_calculate_layout_score] and what each can add. *)
Lemma score_blocks (analysis : ContentAnalysis) (layout_info : LayoutInfo) :
  exists cat str chart dens use : Z,
    _calculate_layout_score analysis layout_info = (cat + str + chart + dens + use)%Z
    /\ (cat = 0 \/ cat = 3)%Z
    /\ (cat = 3%Z ->
        In (content_type analysis) ["data_visualization"; "narrative"; "dashboard"])
    /\ (str = 0 \/ str = 2)%Z
    /\ chart
       = (if has_charts analysis
          then (if (1 <=? chart_placeholders layout_info)%nat then 2 else 0)
               + (if (5 <? data_points analysis)%Z
                     && (2 <=? chart_placeholders layout_info)%nat then 1 else 0)
          else if (1 <=? chart_placeholders layout_info)%nat then -1 else 0)%Z
    /\ (dens = 0 \/ dens = 1)%Z
    /\ (use = 0 \/ use = 1)%Z.
Proof.
  rewrite score_sum.
  unfold score_terms, table_terms, use_case_term, total. cbv zeta. cbn [app fold_right].
  match goal with
  | |- context [(bonus (?c1 && ?k1) 3 + (bonus (?c2 && ?k2) 3 + (bonus (?c3 && ?k3) 3
         + (bonus (?c4 && ?k4) 2 + (bonus (?c5 && ?k5) 2
         + (bonus ?b6 2 + (bonus ?b7 1 + (bonus ?b8 (-1)
         + (bonus (?c9 && ?k9) 1 + (bonus (?c10 && ?k10) 1
         + (bonus ?b11 1 + 0)))))))))))%Z] =>
      exists (bonus (c1 && k1) 3 + bonus (c2 && k2) 3 + bonus (c3 && k3) 3)%Z,
             (bonus (c4 && k4) 2 + bonus (c5 && k5) 2)%Z,
             (bonus b6 2 + bonus b7 1 + bonus b8 (-1))%Z,
             (bonus (c9 && k9) 1 + bonus (c10 && k10) 1)%Z, (bonus b11 1);
      pose proof (bonus_triple c1 c2 c3 k1 k2 k3 3) as Hcat;
      pose proof (bonus_pair c4 c5 k4 k5 2) as Hstr;
      pose proof (bonus_pair c9 c10 k9 k10 1) as Hdens
  end.
  split; [lia|].
  assert (forall x a b : string, (x =? a)%string = true -> a <> b ->
                                 (x =? b)%string = false) as Hother
      by exact eqb_other.
  destruct Hcat as [[Hcat _]|[Hcat Hwhich]].
  { intros H. split; eapply Hother; try exact H; discriminate. }
  { intros H. eapply Hother; [exact H | discriminate]. }
  all: destruct Hstr as [Hstr|Hstr];
    try (intros H; eapply Hother; [exact H | discriminate]).
  all: destruct Hdens as [Hdens|Hdens];
    try (intros H; eapply Hother; [exact H | discriminate]).
  all: split; [lia|]; split.
  all: try (intros _; destruct Hwhich as [H|[H|H]]; apply String.eqb_eq in H;
            rewrite H; simpl; auto).
  all: try (intros Habs; exfalso; lia).
  all: split; [lia|]; split;
    [unfold bonus;
     destruct (has_charts analysis), (1 <=? chart_placeholders layout_info)%nat,
       (5 <? data_points analysis)%Z, (2 <=? chart_placeholders layout_info)%nat;
       reflexivity|].
  all: split; [lia|]; unfold bonus; destruct (key_in _ _); lia.
Qed.

(** X10: a score is never below -1 and never above 10, and both bounds are
    reached. *)
Theorem score_range :
  (forall (analysis : ContentAnalysis) (layout_info : LayoutInfo),
      (-1 <= _calculate_layout_score analysis layout_info <= 10)%Z)
  /\ _calculate_layout_score rich_chart_analysis full_chart_layout = 10%Z
  /\ _calculate_layout_score plain_analysis full_chart_layout = (-1)%Z.
Proof.
  split; [|split; reflexivity].
  intros analysis layout_info.
  destruct (score_blocks analysis layout_info)
    as (cat & str & chart & dens & use & -> & Hc & _ & Hs & Hch & Hd & Hu).
  destruct (has_charts analysis), (1 <=? chart_placeholders layout_info)%nat,
    ((5 <? data_points analysis)%Z && (2 <=? chart_placeholders layout_info)%nat);
    lia.
Qed.

(** X11: a score is negative only through the penalty for a chart layout
    offered to content without charts; it is then exactly -1, no bonus
    having fired. *)
Theorem negative_score_is_chart_penalty
    (analysis : ContentAnalysis) (layout_info : LayoutInfo) :
  (_calculate_layout_score analysis layout_info < 0)%Z ->
  has_charts analysis = false
  /\ (1 <= chart_placeholders layout_info)%nat
  /\ _calculate_layout_score analysis layout_info = (-1)%Z.
Proof.
  intros Hneg.
  destruct (score_blocks analysis layout_info)
    as (cat & str & chart & dens & use & E & Hc & _ & Hs & Hch & Hd & Hu).
  rewrite E in Hneg |- *.
  destruct (has_charts analysis) eqn:Ehc.
  { destruct (1 <=? chart_placeholders layout_info)%nat,
      ((5 <? data_points analysis)%Z && (2 <=? chart_placeholders layout_info)%nat);
      lia. }
  destruct (Nat.leb_spec 1 (chart_placeholders layout_info)) as [Hp|Hp]; [|lia].
  split; [reflexivity|]. split; [exact Hp | lia].
Qed.

Lemma negative_score_is_chart_penalty_witness :
  (_calculate_layout_score plain_analysis full_chart_layout < 0)%Z
  /\ has_charts plain_analysis = false
  /\ (1 <= chart_placeholders full_chart_layout)%nat
  /\ _calculate_layout_score plain_analysis full_chart_layout = (-1)%Z.
Proof.
  assert (_calculate_layout_score plain_analysis full_chart_layout < 0)%Z as H
      by reflexivity.
  split; [exact H|].
  exact (negative_score_is_chart_penalty plain_analysis full_chart_layout H).
Defined.

(** X12: content types other than data_visualization, narrative and
    dashboard never earn the category bonus, so their score is at most 7. *)
Theorem score_without_category_bonus
    (analysis : ContentAnalysis) (layout_info : LayoutInfo) :
  ~ In (content_type analysis) ["data_visualization"; "narrative"; "dashboard"] ->
  (_calculate_layout_score analysis layout_info <= 7)%Z.
Proof.
  intros Hnot.
  destruct (score_blocks analysis layout_info)
    as (cat & str & chart & dens & use & -> & Hc & Hwhich & Hs & Hch & Hd & Hu).
  assert (cat = 0)%Z as -> by (destruct Hc as [Hc|Hc]; [exact Hc | now elim Hnot; apply Hwhich]).
  destruct (has_charts analysis), (1 <=? chart_placeholders layout_info)%nat,
    ((5 <? data_points analysis)%Z && (2 <=? chart_placeholders layout_info)%nat);
    lia.
Qed.

Lemma score_without_category_bonus_witness :
  ~ In (content_type plain_analysis) ["data_visualization"; "narrative"; "dashboard"]
  /\ (_calculate_layout_score plain_analysis full_chart_layout <= 7)%Z.
Proof.
  assert (~ In (content_type plain_analysis)
              ["data_visualization"; "narrative"; "dashboard"]) as H.
  { simpl. intros [E|[E|[E|[]]]]; discriminate E. }
  split; [exact H|].
  exact (score_without_category_bonus plain_analysis full_chart_layout H).
Defined.

(** X13: what the chart flag is worth.  For a layout without a chart
    placeholder the score does not depend on [has_charts]; for a layout
    with one it is 3 higher with the flag than without, and 4 higher when
    moreover there are more than five data points and two chart
    placeholders.  So content without charts always scores strictly less
    on a chart layout than the same content with charts. *)
Theorem chart_flag_effect (analysis : ContentAnalysis) (layout_info : LayoutInfo) :
  _calculate_layout_score (set_has_charts true analysis) layout_info
  = (_calculate_layout_score (set_has_charts false analysis) layout_info
     + (if (1 <=? chart_placeholders layout_info)%nat
        then 3 + (if (5 <? data_points analysis)%Z
                     && (2 <=? chart_placeholders layout_info)%nat then 1 else 0)
        else 0))%Z.
Proof.
  rewrite !score_sum.
  unfold score_terms, table_terms, use_case_term, total. cbv zeta.
  cbn [app fold_right set_has_charts content_type has_charts text_density structure
       data_points].
  cbn [andb negb].
  change (bonus false 2) with 0%Z. change (bonus false 1) with 0%Z.
  change (bonus false (-1)) with 0%Z.
  destruct (Nat.leb_spec 1 (chart_placeholders layout_info)) as [Hp|Hp].
  - change (bonus true 2) with 2%Z. change (bonus true (-1)) with (-1)%Z.
    destruct ((5 <? data_points analysis)%Z && (2 <=? chart_placeholders layout_info)%nat);
      [change (bonus true 1) with 1%Z | change (bonus false 1) with 0%Z]; lia.
  - replace (2 <=? chart_placeholders layout_info)%nat with false
      by (symmetry; apply Nat.leb_gt; lia).
    rewrite andb_false_r.
    change (bonus false 2) with 0%Z. change (bonus false 1) with 0%Z.
    change (bonus false (-1)) with 0%Z. lia.
Qed.

(** ** The analysis record *)

Lemma text_structure_range (text : string) :
  In (text_structure text) ["comparison"; "list"; "narrative"; "single_topic"].
Proof.
  unfold text_structure.
  destruct (any_in comparison_words _); [now left|].
  destruct (any_in list_words _); [right; now left|].
  destruct (_ <? _)%nat; [right; right; now left | right; right; right; now left].
Qed.

(** X14: the fields of every analysis stay within their value sets: seven
    content types, three densities, four structures, and a count of data
    points that is not negative. *)
Theorem analysis_fields_in_range (content : pyval) :
  let a := analyze_content content in
  In (content_type a)
     ["dashboard"; "data_visualization"; "data_table"; "narrative"; "comparison";
      "bullet_points"; "general_content"]
  /\ In (text_density a) ["low"; "medium"; "high"]
  /\ In (structure a) ["comparison"; "list"; "narrative"; "single_topic"]
  /\ (0 <= data_points a)%Z.
Proof.
  intros a. subst a. unfold analyze_content.
  cbn [content_type text_density structure data_points].
  split; [|split; [|split]].
  - unfold _determine_content_type.
    repeat match goal with
           | |- context [if ?c then _ else _] => destruct c
           end; simpl; auto 10.
  - unfold density_of.
    destruct (_ <? 20)%nat; [now left|].
    destruct (_ <? 100)%nat; [right; now left | right; right; now left].
  - unfold _analyze_structure.
    destruct (_ && _); [now left|].
    destruct (_ && _); [right; now left|].
    apply text_structure_range.
  - lia.
Qed.

(** X15: the content type tells the keyword flags and is consistent with
    the other fields: dashboard exactly when charts and tables were both
    found, data_visualization exactly for charts alone, data_table exactly
    for tables alone; narrative only with high density, comparison only
    with comparison structure, bullet_points only with list structure. *)
Theorem content_type_determines_flags (content : pyval) :
  let a := analyze_content content in
  (content_type a = "dashboard" <-> has_charts a = true /\ has_tables a = true)
  /\ (content_type a = "data_visualization"
      <-> has_charts a = true /\ has_tables a = false)
  /\ (content_type a = "data_table" <-> has_charts a = false /\ has_tables a = true)
  /\ (content_type a = "narrative" -> text_density a = "high")
  /\ (content_type a = "comparison" -> structure a = "comparison")
  /\ (content_type a = "bullet_points" -> structure a = "list").
Proof.
  intros a. subst a. unfold analyze_content.
  cbn [has_charts has_tables content_type text_density structure].
  generalize (any_in chart_keywords (lower (all_text content))).
  generalize (any_in table_keywords (lower (all_text content))).
  generalize (density_of (word_count (all_text content))).
  generalize (_analyze_structure content (all_text content)).
  intros st d ht hc. unfold _determine_content_type.
  destruct hc, ht; cbn [andb];
    try (repeat split; intros; try discriminate; intuition discriminate).
  destruct (String.eqb_spec d "high") as [->|Hd];
    [repeat split; intros; try discriminate; intuition discriminate|].
  destruct (String.eqb_spec st "comparison") as [->|Hc];
    [repeat split; intros; try discriminate; intuition discriminate|].
  destruct (String.eqb_spec st "list") as [->|Hl];
    repeat split; intros; try discriminate; intuition discriminate.
Qed.

(** X16: [key_metrics] holds exactly the metric keywords that occur in the
    lower-cased corpus, each once, in the order of the keyword list and
    not in the order of the text. *)
Theorem key_metrics_are_vocabulary_matches (content : pyval) :
  let metrics := key_metrics (analyze_content content) in
  (forall k : string,
      In k metrics
      <-> In k metric_keywords /\ contains k (lower (all_text content)) = true)
  /\ NoDup metrics
  /\ metrics `sublist_of` metric_keywords.
Proof.
  intros metrics. subst metrics. unfold analyze_content. cbn [key_metrics].
  unfold _extract_metrics.
  split; [|split].
  - intros k. rewrite filter_In. reflexivity.
  - apply NoDup_ListNoDup, List.NoDup_filter.
    unfold metric_keywords.
    repeat (constructor; [simpl; intuition discriminate|]). constructor.
  - induction metric_keywords as [|k ks IH]; simpl; [constructor|].
    destruct (contains k _); [now apply sublist_skip | now apply sublist_cons].
Qed.

(** X17: the metric keywords revenue, growth and kpi are chart keywords
    too: whenever one of them is in [key_metrics], [has_charts] holds and
    the content type is dashboard or data_visualization. *)
Theorem chart_metrics_force_chart_content (content : pyval) (k : string) :
  In k (key_metrics (analyze_content content)) ->
  In k ["revenue"; "growth"; "kpi"] ->
  has_charts (analyze_content content) = true
  /\ In (content_type (analyze_content content)) ["dashboard"; "data_visualization"].
Proof.
  unfold analyze_content. cbn [key_metrics has_charts content_type].
  unfold _extract_metrics. rewrite filter_In. intros [_ Hk] Hin.
  assert (any_in chart_keywords (lower (all_text content)) = true) as Hc.
  { unfold any_in. apply existsb_exists. exists k. split; [|exact Hk].
    simpl in Hin. unfold chart_keywords. simpl.
    destruct Hin as [<-|[<-|[<-|[]]]]; auto 10. }
  split; [exact Hc|]. rewrite Hc. unfold _determine_content_type. cbn [andb].
  destruct (any_in table_keywords _); simpl; auto.
Qed.

Lemma chart_metrics_force_chart_content_witness :
  In "revenue" (key_metrics (analyze_content (PStr "Revenue up 4%")))
  /\ In "revenue" ["revenue"; "growth"; "kpi"]
  /\ has_charts (analyze_content (PStr "Revenue up 4%")) = true
  /\ In (content_type (analyze_content (PStr "Revenue up 4%")))
        ["dashboard"; "data_visualization"].
Proof.
  assert (In "revenue" (key_metrics (analyze_content (PStr "Revenue up 4%")))) as H1
      by (left; reflexivity).
  assert (In "revenue" ["revenue"; "growth"; "kpi"]) as H2 by (left; reflexivity).
  split; [exact H1|]. split; [exact H2|].
  exact (chart_metrics_force_chart_content (PStr "Revenue up 4%") "revenue" H1 H2).
Defined.

(** X18: when no key is a comparison key and some value is a list, the
    structure is list, whatever the text says. *)
Theorem list_value_gives_list
    (items : list (string * pyval)) (k : string) (l : list pyval) :
  existsb (key_in comparison_keys) (map fst items) = false ->
  In (k, PList l) items ->
  structure (analyze_content (PDict items)) = "list".
Proof.
  intros Hkeys Hin. unfold analyze_content. cbn [structure].
  unfold _analyze_structure. cbn [is_dict dict_items andb]. rewrite Hkeys.
  replace (existsb is_list (map snd items)) with true; [reflexivity|].
  symmetry. apply existsb_exists. exists (PList l). split; [|reflexivity].
  apply in_map_iff. exists (k, PList l). split; [reflexivity | exact Hin].
Qed.

Lemma list_value_gives_list_witness :
  existsb (key_in comparison_keys)
          (map fst [("summary", PStr "A versus B"); ("points", PList [PStr "x"])]) = false
  /\ In ("points", PList [PStr "x"])
        [("summary", PStr "A versus B"); ("points", PList [PStr "x"])]
  /\ structure (analyze_content
                  (PDict [("summary", PStr "A versus B"); ("points", PList [PStr "x"])]))
     = "list".
Proof.
  assert (existsb (key_in comparison_keys)
            (map fst [("summary", PStr "A versus B"); ("points", PList [PStr "x"])])
          = false) as H1 by reflexivity.
  assert (In ("points", PList [PStr "x"])
             [("summary", PStr "A versus B"); ("points", PList [PStr "x"])]) as H2
      by (right; left; reflexivity).
  split; [exact H1|]. split; [exact H2|].
  exact (list_value_gives_list _ "points" [PStr "x"] H1 H2).
Defined.

(** ** Data points and digits *)

Lemma skip_digits_digits (s : string) :
  (count_digits (skip_digits s) <= count_digits s)%nat.
Proof.
  induction s as [|c s IH]; simpl; [lia|].
  destruct (is_digit c) eqn:E; simpl; [lia | rewrite E; lia].
Qed.

Lemma skip_char_digits (a : ascii) (s : string) :
  (count_digits (skip_char a s) <= count_digits s)%nat.
Proof.
  destruct s as [|c s]; simpl; [lia|].
  destruct (Ascii.eqb c a); simpl; lia.
Qed.

Lemma match_number_digits (s rest : string) :
  match_number s = Some rest -> (S (count_digits rest) <= count_digits s)%nat.
Proof.
  destruct s as [|c s]; simpl; [discriminate|].
  destruct (is_digit c); [|discriminate].
  intros [= <-].
  pose proof (skip_digits_digits s).
  pose proof (skip_char_digits "." (skip_digits s)).
  pose proof (skip_digits_digits (skip_char "." (skip_digits s))).
  pose proof (skip_char_digits "%" (skip_digits (skip_char "." (skip_digits s)))).
  lia.
Qed.

Lemma match_currency_digits (s rest : string) :
  match_currency s = Some rest -> (S (count_digits rest) <= count_digits s)%nat.
Proof.
  destruct s as [|c [|d s]]; simpl; try discriminate.
  destruct (Ascii.eqb c "$"); simpl; [|discriminate].
  destruct (is_digit d); [|discriminate].
  intros [= <-]. pose proof (skip_digits_digits s). lia.
Qed.

Lemma count_matches_le_digits (fuel : nat) (s : string) :
  (count_matches fuel s <= count_digits s)%nat.
Proof.
  revert s. induction fuel as [|fuel IH]; intros s; [simpl; lia|].
  destruct s as [|c s]; [simpl; lia|].
  cbn [count_matches].
  destruct (match_number (String c s)) as [rest|] eqn:En.
  - apply match_number_digits in En. specialize (IH rest). lia.
  - destruct (match_currency (String c s)) as [rest|] eqn:Ec.
    + apply match_currency_digits in Ec. specialize (IH rest). lia.
    + specialize (IH s). simpl. lia.
Qed.

Lemma count_matches_positive (fuel : nat) (s : string) :
  (String.length s <= fuel)%nat -> (1 <= count_digits s)%nat ->
  (1 <= count_matches fuel s)%nat.
Proof.
  revert s. induction fuel as [|fuel IH]; intros s Hlen Hd.
  - destruct s; simpl in *; lia.
  - destruct s as [|c s]; [simpl in Hd; lia|].
    cbn [count_matches].
    destruct (match_number (String c s)) as [rest|] eqn:En; [lia|].
    destruct (match_currency (String c s)) as [rest|] eqn:Ec; [lia|].
    apply IH; [simpl in Hlen; lia|].
    simpl in En, Hd. destruct (is_digit c); [discriminate | exact Hd].
Qed.

(** X19: every data point takes at least one digit of its own, so the
    count of data points is at most the number of digits of the corpus,
    and it is 0 exactly when the corpus has no digit. *)
Theorem data_points_and_digits (content : pyval) :
  let a := analyze_content content in
  (data_points a <= Z.of_nat (count_digits (all_text content)))%Z
  /\ (data_points a = 0%Z <-> count_digits (all_text content) = 0%nat).
Proof.
  intros a. subst a. unfold analyze_content. cbn [data_points].
  unfold _count_data_points.
  pose proof (count_matches_le_digits (String.length (all_text content))
                (all_text content)) as Hle.
  split; [lia|]. split; [|lia].
  intros H0. destruct (count_digits (all_text content)) as [|n] eqn:E; [reflexivity|].
  pose proof (count_matches_positive (String.length (all_text content))
                (all_text content)) as Hpos.
  rewrite E in Hpos. specialize (Hpos (le_n _)). lia.
Qed.

(** ** Sentences *)

Lemma split_on_from_length (sep : ascii) (cur s : string) :
  length (split_on_from sep cur s) = S (count_char sep s).
Proof.
  revert cur. induction s as [|c s IH]; intros cur; [reflexivity|].
  simpl. destruct (Ascii.eqb c sep); simpl; now rewrite IH.
Qed.

(** X20: [text.split('.')] has one part more than the text has periods, so
    a text is narrative exactly when it has no comparison word, no list
    word and at least three periods; three periods are enough, whatever
    follows the last one. *)
Theorem narrative_needs_three_periods (text : string) :
  length (split_on "." text) = S (count_char "." text)
  /\ (text_structure text = "narrative"
      <-> any_in comparison_words (lower text) = false
          /\ any_in list_words (lower text) = false
          /\ (3 <= count_char "." text)%nat).
Proof.
  assert (length (split_on "." text) = S (count_char "." text)) as Hlen
      by apply split_on_from_length.
  split; [exact Hlen|].
  unfold text_structure. rewrite Hlen.
  destruct (any_in comparison_words (lower text));
    [split; [discriminate | intros [H _]; discriminate]|].
  destruct (any_in list_words (lower text));
    [split; [discriminate | intros (_ & H & _); discriminate]|].
  destruct (Nat.ltb_spec 3 (S (count_char "." text))) as [H|H].
  - split; [intros _; repeat split; lia | reflexivity].
  - split; [discriminate | intros (_ & _ & H3); lia].
Qed.

(** ** The corpus of a mapping, item by item *)

Lemma lower_app (a b : string) : lower (a +:+ b) = lower a +:+ lower b.
Proof. induction a as [|c a IH]; [reflexivity | simpl; now rewrite IH]. Qed.

Lemma prefix_before_space (k a b : string) :
  has_char " " k = false ->
  String.prefix k (a +:+ String " " b) = String.prefix k a.
Proof.
  revert a. induction k as [|x k IH]; intros a Hk.
  - now destruct a.
  - simpl in Hk. apply orb_false_iff in Hk as [Hx Hk].
    destruct a as [|c a]; simpl.
    + destruct (ascii_dec x " ") as [->|_]; [discriminate Hx | reflexivity].
    + destruct (ascii_dec x c); [apply IH, Hk | reflexivity].
Qed.

Lemma contains_eq (k h : string) :
  contains k h
  = String.prefix k h
    || match h with EmptyString => false | String _ r => contains k r end.
Proof. destruct h; reflexivity. Qed.

(** A keyword without a space is never found across a space. *)
Lemma contains_across_space (k a b : string) :
  has_char " " k = false ->
  contains k (a +:+ String " " b) = contains k a || contains k b.
Proof.
  intros Hk. induction a as [|c a IH].
  - change (EmptyString +:+ String " " b) with (String " " b).
    rewrite (contains_eq k (String " " b)), (contains_eq k EmptyString).
    change (String " " b) with (EmptyString +:+ String " " b) at 1.
    rewrite (prefix_before_space k EmptyString b Hk). now rewrite orb_false_r.
  - change (String c a +:+ String " " b) with (String c (a +:+ String " " b)).
    rewrite (contains_eq k (String c (a +:+ String " " b))), (contains_eq k (String c a)).
    change (String c (a +:+ String " " b)) with (String c a +:+ String " " b).
    rewrite (prefix_before_space k (String c a) b Hk), IH.
    now rewrite orb_assoc.
Qed.

Lemma contains_empty (k : string) :
  String.eqb k EmptyString = false -> contains k EmptyString = false.
Proof. destruct k; [discriminate | reflexivity]. Qed.

Lemma one_word_inv (k : string) :
  one_word k = true -> String.eqb k EmptyString = false /\ has_char " " k = false.
Proof.
  unfold one_word. rewrite andb_true_iff, !negb_true_iff. tauto.
Qed.

Lemma any_in_across_space (keywords : list string) (a b : string) :
  forallb one_word keywords = true ->
  any_in keywords (a +:+ String " " b) = any_in keywords a || any_in keywords b.
Proof.
  unfold any_in. induction keywords as [|k ks IH]; [reflexivity|].
  cbn [existsb forallb]. rewrite andb_true_iff. intros [Hk Hks].
  apply one_word_inv in Hk as [_ Hk].
  rewrite (contains_across_space k a b Hk), (IH Hks).
  generalize (existsb (fun k0 => contains k0 a) ks)
             (existsb (fun k0 => contains k0 b) ks).
  intros ea eb. destruct (contains k a), (contains k b), ea, eb; reflexivity.
Qed.

Lemma any_in_empty (keywords : list string) :
  forallb one_word keywords = true -> any_in keywords EmptyString = false.
Proof.
  unfold any_in. induction keywords as [|k ks IH]; [reflexivity|].
  cbn [existsb forallb]. rewrite andb_true_iff. intros [Hk Hks].
  apply one_word_inv in Hk as [Hk _].
  now rewrite (contains_empty k Hk), (IH Hks).
Qed.

(** A value adds nothing, or a text and the space behind it. *)
Lemma value_text_shape (v : pyval) :
  value_text v = EmptyString \/ exists t, value_text v = t +:+ " ".
Proof. destruct v; simpl; eauto. Qed.

Lemma single_item_text (kv : string * pyval) :
  all_text (PDict [kv]) = value_text (snd kv).
Proof. reflexivity. Qed.

Lemma lower_text_space (t rest : string) :
  lower ((t +:+ " ") +:+ rest) = lower t +:+ String " " (lower rest).
Proof. now rewrite str_app_assoc, !lower_app. Qed.

Lemma any_in_items (keywords : list string) (items : list (string * pyval)) :
  forallb one_word keywords = true ->
  any_in keywords (lower (items_text items))
  = existsb (fun kv => any_in keywords (lower (value_text (snd kv)))) items.
Proof.
  intros Hk. induction items as [|kv items IH].
  - simpl. now apply any_in_empty.
  - rewrite items_text_cons. simpl existsb. rewrite <- IH.
    destruct (value_text_shape (snd kv)) as [->|[t ->]].
    + simpl. now rewrite (any_in_empty keywords Hk).
    + rewrite lower_text_space, (any_in_across_space keywords _ _ Hk).
      rewrite <- (str_app_nil_r (t +:+ " ")), lower_text_space.
      rewrite (any_in_across_space keywords _ _ Hk).
      simpl lower. now rewrite (any_in_empty keywords Hk), orb_false_r.
Qed.

(** X21: the keyword flags of a mapping are the disjunctions of the flags
    of its items taken one by one: a keyword is never found across two
    values, and a metric is in [key_metrics] exactly when some item alone
    has it. *)
Theorem flags_are_found_item_by_item (items : list (string * pyval)) :
  let a := analyze_content (PDict items) in
  has_charts a = existsb (fun kv => has_charts (item_analysis kv)) items
  /\ has_tables a = existsb (fun kv => has_tables (item_analysis kv)) items
  /\ has_images a = existsb (fun kv => has_images (item_analysis kv)) items
  /\ (forall k : string,
         In k (key_metrics a)
         <-> exists kv, In kv items /\ In k (key_metrics (item_analysis kv))).
Proof.
  intros a. subst a. unfold item_analysis, analyze_content.
  cbn [has_charts has_tables has_images key_metrics].
  split; [|split; [|split]].
  - change (all_text (PDict items)) with (items_text items).
    now rewrite any_in_items.
  - change (all_text (PDict items)) with (items_text items).
    now rewrite any_in_items.
  - change (all_text (PDict items)) with (items_text items).
    now rewrite any_in_items.
  - intros k. unfold _extract_metrics. rewrite filter_In.
    change (all_text (PDict items)) with (items_text items).
    split.
    + intros [Hin Hc].
      assert (any_in [k] (lower (items_text items)) = true) as Hany
          by (unfold any_in; simpl; now rewrite Hc).
      rewrite any_in_items in Hany.
      * apply existsb_exists in Hany as (kv & Hkv & Hc').
        exists kv. split; [exact Hkv|]. rewrite filter_In. split; [exact Hin|].
        unfold any_in in Hc'. simpl in Hc'. now rewrite orb_false_r in Hc'.
      * simpl. rewrite andb_true_r.
        unfold metric_keywords in Hin. simpl in Hin.
        repeat (destruct Hin as [<-|Hin]; [reflexivity|]). destruct Hin.
    + intros (kv & Hkv & Hk). rewrite filter_In in Hk. destruct Hk as [Hin Hc].
      split; [exact Hin|].
      assert (any_in [k] (lower (items_text items)) = true) as Hany.
      { rewrite any_in_items.
        - apply existsb_exists. exists kv. split; [exact Hkv|].
          unfold any_in. simpl. rewrite orb_false_r. exact Hc.
        - simpl. rewrite andb_true_r.
          unfold metric_keywords in Hin. simpl in Hin.
          repeat (destruct Hin as [<-|Hin]; [reflexivity|]). destruct Hin. }
      unfold any_in in Hany. simpl in Hany. now rewrite orb_false_r in Hany.
Qed.

Lemma skip_digits_before_space (a b : string) :
  skip_digits (a +:+ String " " b) = skip_digits a +:+ String " " b.
Proof.
  induction a as [|c a IH]; [reflexivity|].
  simpl. destruct (is_digit c); [exact IH | reflexivity].
Qed.

Lemma skip_char_before_space (x : ascii) (a b : string) :
  Ascii.eqb " " x = false ->
  skip_char x (a +:+ String " " b) = skip_char x a +:+ String " " b.
Proof.
  intros Hx. destruct a as [|c a].
  - change (skip_char x (String " " b) = String " " b).
    unfold skip_char. now rewrite Hx.
  - change (skip_char x (String c (a +:+ String " " b))
            = skip_char x (String c a) +:+ String " " b).
    unfold skip_char. destruct (Ascii.eqb c x); reflexivity.
Qed.

Lemma match_number_before_space (a b : string) :
  match_number (a +:+ String " " b)
  = option_map (fun rest => rest +:+ String " " b) (match_number a).
Proof.
  destruct a as [|c a]; [reflexivity|].
  simpl. destruct (is_digit c); [|reflexivity]. simpl. f_equal.
  rewrite skip_digits_before_space, skip_char_before_space by reflexivity.
  now rewrite skip_digits_before_space, skip_char_before_space by reflexivity.
Qed.

Lemma match_currency_before_space (a b : string) :
  match_currency (a +:+ String " " b)
  = option_map (fun rest => rest +:+ String " " b) (match_currency a).
Proof.
  destruct a as [|c [|d a]].
  - destruct b; reflexivity.
  - simpl. now rewrite andb_false_r.
  - simpl. destruct (Ascii.eqb c "$" && is_digit d); [|reflexivity].
    simpl. now rewrite skip_digits_before_space.
Qed.

Lemma str_length_app (a b : string) :
  String.length (a +:+ b) = (String.length a + String.length b)%nat.
Proof. induction a as [|c a IH]; [reflexivity | simpl; now rewrite IH]. Qed.

(** No data point reaches across a space. *)
Lemma count_matches_across_space (fuel : nat) (a b : string) :
  (String.length (a +:+ String " " b) <= fuel)%nat ->
  count_matches fuel (a +:+ String " " b)
  = (_count_data_points a + _count_data_points b)%nat.
Proof.
  revert a. induction fuel as [|fuel IH]; intros a Hlen.
  - destruct a; simpl in Hlen; lia.
  - destruct a as [|c a].
    + change (EmptyString +:+ String " " b) with (String " " b) in *.
      cbn [count_matches]. simpl in Hlen.
      replace (match_number (String " " b)) with (@None string) by reflexivity.
      replace (match_currency (String " " b)) with (@None string)
        by (destruct b; reflexivity).
      rewrite (count_matches_fuel fuel b) by lia. reflexivity.
    + assert (forall rest,
                 (String.length rest < String.length (String c a))%nat ->
                 count_matches fuel (rest +:+ String " " b)
                 = (count_matches (String.length a) rest + _count_data_points b)%nat)
        as Hrest.
      { intros rest Hr. rewrite IH.
        - rewrite (count_matches_fuel (String.length a) rest); [reflexivity|].
          simpl in Hr. lia.
        - rewrite str_length_app in Hlen |- *. lia. }
      change (String c a +:+ String " " b) with (String c (a +:+ String " " b)).
      cbn [count_matches].
      change (String c (a +:+ String " " b)) with (String c a +:+ String " " b).
      rewrite match_number_before_space, match_currency_before_space.
      unfold _count_data_points at 1. cbn [String.length count_matches].
      destruct (match_number (String c a)) as [rest|] eqn:En; cbn [option_map].
      * rewrite Hrest by (now apply match_number_shorter). reflexivity.
      * destruct (match_currency (String c a)) as [rest|] eqn:Ec; cbn [option_map].
        -- rewrite Hrest by (now apply match_currency_shorter). reflexivity.
        -- rewrite (Hrest a) by (simpl; lia). reflexivity.
Qed.

Lemma data_points_across_space (a b : string) :
  _count_data_points (a +:+ String " " b)
  = (_count_data_points a + _count_data_points b)%nat.
Proof. unfold _count_data_points at 1. apply count_matches_across_space. lia. Qed.

Lemma flush_app (cur : string) (x y : list string) :
  flush cur (x ++ y) = flush cur x ++ y.
Proof. destruct cur; reflexivity. Qed.

Lemma split_ws_across_space (cur a b : string) :
  split_ws cur (a +:+ String " " b) = split_ws cur a ++ split b.
Proof.
  revert cur. induction a as [|c a IH]; intros cur.
  - change (EmptyString +:+ String " " b) with (String " " b).
    cbn [split_ws]. change (is_space " ") with true. cbn iota.
    now rewrite <- flush_app.
  - change (String c a +:+ String " " b) with (String c (a +:+ String " " b)).
    cbn [split_ws]. destruct (is_space c).
    + now rewrite IH, flush_app.
    + apply IH.
Qed.

Lemma word_count_across_space (a b : string) :
  word_count (a +:+ String " " b) = (word_count a + word_count b)%nat.
Proof.
  unfold word_count, split. now rewrite split_ws_across_space, length_app.
Qed.

Lemma items_counts (items : list (string * pyval)) :
  _count_data_points (items_text items)
  = sum_nat (map (fun kv => _count_data_points (value_text (snd kv))) items)
  /\ word_count (items_text items)
     = sum_nat (map (fun kv => word_count (value_text (snd kv))) items).
Proof.
  induction items as [|kv items [IHd IHw]]; [split; reflexivity|].
  rewrite items_text_cons. cbn [map sum_nat fold_right].
  fold (sum_nat (map (fun kv => _count_data_points (value_text (snd kv))) items)).
  fold (sum_nat (map (fun kv => word_count (value_text (snd kv))) items)).
  rewrite <- IHd, <- IHw.
  destruct (value_text_shape (snd kv)) as [->|[t ->]]; [split; reflexivity|].
  rewrite str_app_assoc.
  change (" " +:+ items_text items) with (String " " (items_text items)).
  rewrite data_points_across_space, word_count_across_space.
  change (t +:+ " ") with (t +:+ String " " EmptyString).
  rewrite data_points_across_space, word_count_across_space.
  change (_count_data_points EmptyString) with 0%nat.
  change (word_count EmptyString) with 0%nat.
  split; lia.
Qed.

(** X22: the data points and the words of a mapping are counted item by
    item: [data_points] is the sum of the data points of the items, and the
    density is the one of the sum of their word counts. *)
Theorem counts_add_up_over_items (items : list (string * pyval)) :
  let a := analyze_content (PDict items) in
  data_points a = sum_Z (map (fun kv => data_points (item_analysis kv)) items)
  /\ word_count (all_text (PDict items))
     = sum_nat (map (fun kv => word_count (all_text (PDict [kv]))) items)
  /\ text_density a
     = density_of (sum_nat (map (fun kv => word_count (all_text (PDict [kv]))) items)).
Proof.
  intros a. subst a. unfold item_analysis, analyze_content.
  cbn [data_points text_density].
  change (all_text (PDict items)) with (items_text items).
  destruct (items_counts items) as [Hd Hw].
  split; [|split].
  - rewrite Hd. clear. induction items as [|kv items IH]; [reflexivity|].
    cbn [map sum_nat sum_Z fold_right].
    fold (sum_nat (map (fun kv => _count_data_points (value_text (snd kv))) items)).
    rewrite Nat2Z.inj_add, IH. reflexivity.
  - exact Hw.
  - now rewrite Hw.
Qed.

(** ** Reordering the items of a mapping *)

Lemma existsb_perm {A : Type} (p : A -> bool) (l l' : list A) :
  Permutation l l' -> existsb p l = existsb p l'.
Proof.
  induction 1 as [|x l l' _ IH|x y l|l l' l'' _ IH1 _ IH2]; simpl.
  - reflexivity.
  - now rewrite IH.
  - destruct (p x), (p y); reflexivity.
  - now rewrite IH1.
Qed.

Lemma sum_nat_perm (l l' : list nat) :
  Permutation l l' -> sum_nat l = sum_nat l'.
Proof.
  unfold sum_nat.
  induction 1 as [|x l l' _ IH|x y l|l l' l'' _ IH1 _ IH2]; simpl; lia.
Qed.

Lemma any_in_items_perm (keywords : list string) (items items' : list (string * pyval)) :
  forallb one_word keywords = true -> Permutation items items' ->
  any_in keywords (lower (items_text items))
  = any_in keywords (lower (items_text items')).
Proof.
  intros Hk HP. rewrite !any_in_items by exact Hk. now apply existsb_perm.
Qed.

(** X23: the order of the items of a mapping does not change the keyword
    flags, the density, the count of data points or the key metrics.  (The
    structure is left out: the comparison cue "compared to" has a space and
    can be formed across two values.) *)
Theorem reordering_items_keeps_counts_and_flags
    (items items' : list (string * pyval)) :
  Permutation items items' ->
  let a := analyze_content (PDict items) in
  let a' := analyze_content (PDict items') in
  has_charts a = has_charts a'
  /\ has_tables a = has_tables a'
  /\ has_images a = has_images a'
  /\ text_density a = text_density a'
  /\ data_points a = data_points a'
  /\ key_metrics a = key_metrics a'.
Proof.
  intros HP a a'. subst a a'. unfold analyze_content.
  cbn [has_charts has_tables has_images text_density data_points key_metrics].
  change (all_text (PDict items)) with (items_text items).
  change (all_text (PDict items')) with (items_text items').
  destruct (items_counts items) as [Hd Hw].
  destruct (items_counts items') as [Hd' Hw'].
  repeat split.
  - now apply any_in_items_perm.
  - now apply any_in_items_perm.
  - now apply any_in_items_perm.
  - rewrite Hw, Hw'. f_equal. apply sum_nat_perm. now apply Permutation_map.
  - rewrite Hd, Hd'. f_equal. apply sum_nat_perm. now apply Permutation_map.
  - unfold _extract_metrics. apply filter_ext_in. intros k Hin.
    assert (forallb one_word [k] = true) as Hk.
    { cbn [forallb]. rewrite andb_true_r.
      unfold metric_keywords in Hin. simpl in Hin.
      repeat (destruct Hin as [<-|Hin]; [reflexivity|]). destruct Hin. }
    pose proof (any_in_items_perm [k] items items' Hk HP) as H.
    unfold any_in in H. cbn [existsb] in H. now rewrite !orb_false_r in H.
Qed.

Lemma reordering_items_keeps_counts_and_flags_witness :
  Permutation [("a", PStr "Revenue 4%"); ("b", PList [PStr "table"; PStr "7"])]
              [("b", PList [PStr "table"; PStr "7"]); ("a", PStr "Revenue 4%")]
  /\ data_points
       (analyze_content
          (PDict [("a", PStr "Revenue 4%"); ("b", PList [PStr "table"; PStr "7"])]))
     = data_points
         (analyze_content
            (PDict [("b", PList [PStr "table"; PStr "7"]); ("a", PStr "Revenue 4%")])).
Proof.
  assert (Permutation [("a", PStr "Revenue 4%"); ("b", PList [PStr "table"; PStr "7"])]
                      [("b", PList [PStr "table"; PStr "7"]); ("a", PStr "Revenue 4%")])
    as HP by apply perm_swap.
  split; [exact HP|].
  exact (proj1 (proj2 (proj2 (proj2 (proj2
           (reordering_items_keeps_counts_and_flags _ _ HP)))))).
Defined.

(** ** Keys of the summary dicts *)

Lemma bump_positive (k : string) (d : gmap string nat) :
  positive_counts d -> positive_counts (bump k d).
Proof.
  intros Hd tag c. unfold bump.
  destruct (decide (k = tag)) as [->|Hne].
  - rewrite lookup_insert_eq. intros [= <-]. lia.
  - rewrite lookup_insert_ne by exact Hne. apply Hd.
Qed.

Lemma summarize_loop_positive (phs : list Placeholder) (init : PlaceholderSummary) :
  positive_counts (by_type init) -> positive_counts (by_column init) ->
  positive_counts (by_type (fold_left summarize_step phs init))
  /\ positive_counts (by_column (fold_left summarize_step phs init)).
Proof.
  revert init. induction phs as [|p phs IH]; intros init Ht Hc; [now split|].
  simpl fold_left. apply IH; unfold summarize_step; simpl; now apply bump_positive.
Qed.

Lemma lookup_of_count (d : gmap string nat) (tag : string) (n : nat) :
  positive_counts d -> default 0%nat (d !! tag) = n ->
  d !! tag = if (n =? 0)%nat then None else Some n.
Proof.
  intros Hpos Hn. destruct (d !! tag) as [c|] eqn:E; simpl in Hn; subst n.
  - specialize (Hpos tag c E). destruct (Nat.eqb_spec c 0); [lia | reflexivity].
  - reflexivity.
Qed.

(** X24: the keys of [by_type] and [by_column] are exactly the tags that
    occur (unknown and none standing for a missing tag), each with the
    number of its placeholders: no key is stored with a count of zero, so
    the summary of a layout without placeholders has two empty dicts. *)
Theorem summary_keys_are_occurring_tags (layout : LayoutInfo) (tag : string) :
  let s := _summarize_placeholders layout in
  let phs := placeholder_values layout in
  by_type s !! tag
  = (if (tagged ph_type "unknown" tag phs =? 0)%nat then None
     else Some (tagged ph_type "unknown" tag phs))
  /\ by_column s !! tag
     = (if (tagged ph_column "none" tag phs =? 0)%nat then None
        else Some (tagged ph_column "none" tag phs))
  /\ (phs = [] -> by_type s = ∅ /\ by_column s = ∅).
Proof.
  intros s phs. subst s phs. unfold _summarize_placeholders, placeholder_values.
  set (placeholders := default [] (l_placeholders layout)).
  set (init := {| total_count := length placeholders; by_type := ∅;
                  by_column := ∅; required_count := 0 |}).
  destruct (summarize_loop (map snd placeholders) init)
    as (_ & _ & _ & _ & H5 & H6).
  destruct (summarize_loop_positive (map snd placeholders) init) as [Pt Pc];
    [intros t c; simpl; rewrite lookup_empty; discriminate
    |intros t c; simpl; rewrite lookup_empty; discriminate|].
  cbv zeta in H5, H6. split; [|split].
  - apply lookup_of_count; [exact Pt|].
    rewrite H5. simpl. now rewrite lookup_empty.
  - apply lookup_of_count; [exact Pc|].
    rewrite H6. simpl. now rewrite lookup_empty.
  - intros ->. split; reflexivity.
Qed.

(** ** Score and reason together *)

Lemma bonus_lower (c : bool) (n : Z) : (Z.min 0 n <= bonus c n)%Z.
Proof. unfold bonus. destruct c; lia. Qed.

Ltac bonus_bounds :=
  repeat match goal with
         | |- context [bonus ?c ?n] =>
             lazymatch goal with
             | _ : (Z.min 0 n <= bonus c n)%Z |- _ => fail
             | _ => pose proof (bonus_lower c n)
             end
         end.

Lemma score_with_chart_support (a : ContentAnalysis) (l : LayoutInfo) :
  has_charts a = true -> (1 <= chart_placeholders l)%nat ->
  (2 <= _calculate_layout_score a l)%Z.
Proof.
  intros Hc Hp. rewrite score_sum.
  unfold score_terms, table_terms, use_case_term, total. cbv zeta. cbn [app fold_right].
  rewrite Hc. cbn [andb negb].
  replace (1 <=? chart_placeholders l)%nat with true
    by (symmetry; apply Nat.leb_le; lia).
  change (bonus true 2) with 2%Z. change (bonus false (-1)) with 0%Z.
  bonus_bounds. lia.
Qed.

Lemma score_with_comparison_match (a : ContentAnalysis) (l : LayoutInfo) :
  structure a = "comparison" ->
  contains "two_column" (get_str (l_structure l)) = true ->
  (1 <= _calculate_layout_score a l)%Z.
Proof.
  intros Hs Ht. rewrite score_sum.
  unfold score_terms, table_terms, use_case_term, total. cbv zeta. cbn [app fold_right].
  rewrite Hs, Ht. change (("comparison" =? "comparison")%string) with true.
  cbn [andb]. change (bonus true 2) with 2%Z.
  bonus_bounds. lia.
Qed.

(** The reason as one text: name, label and the two optional clauses. *)
Lemma reason_form (a : ContentAnalysis) (l : LayoutInfo) (score : Z) :
  _generate_recommendation_reason a l score
  = default "Unknown Layout" (l_semantic_name l) +:+ ": "
    +:+ (if (3 <=? score)%Z then "Perfect match for " +:+ content_type a
         else if (2 <=? score)%Z then "Good fit for " +:+ content_type a
         else if (1 <=? score)%Z then "Suitable for " +:+ content_type a
         else "Partial match")
    +:+ (if has_charts a && (0 <? chart_placeholders l)%nat
         then ", Supports " +:+ str_of_nat (chart_placeholders l) +:+ " chart(s)"
         else EmptyString)
    +:+ (if String.eqb (structure a) "comparison"
            && contains "two_column" (get_str (l_structure l))
         then ", Ideal for comparisons" else EmptyString).
Proof.
  unfold _generate_recommendation_reason. cbv zeta.
  destruct (has_charts a && (0 <? chart_placeholders l)%nat);
    destruct ((structure a =? "comparison")%string
              && contains "two_column" (get_str (l_structure l)));
    cbn [app join String.concat]; f_equal; f_equal;
    rewrite ?str_app_nil_r, ?str_app_assoc; reflexivity.
Qed.

(** X25: when the content has charts and the layout has a chart
    placeholder, the layout's score is at least 2, so the reason built
    from that score is labelled Perfect match or Good fit, names the
    content type, and counts the chart placeholders. *)
Theorem chart_support_is_a_good_fit (a : ContentAnalysis) (l : LayoutInfo) :
  has_charts a = true -> (1 <= chart_placeholders l)%nat ->
  let score := _calculate_layout_score a l in
  (2 <= score)%Z
  /\ exists label tail : string,
       (label = "Perfect match for " \/ label = "Good fit for ")
       /\ (tail = EmptyString \/ tail = ", Ideal for comparisons")
       /\ _generate_recommendation_reason a l score
          = default "Unknown Layout" (l_semantic_name l) +:+ ": " +:+ label
            +:+ content_type a +:+ ", Supports "
            +:+ str_of_nat (chart_placeholders l) +:+ " chart(s)" +:+ tail.
Proof.
  intros Hc Hp score. subst score.
  pose proof (score_with_chart_support a l Hc Hp) as Hscore.
  split; [exact Hscore|].
  rewrite reason_form, Hc. cbn [andb].
  replace (0 <? chart_placeholders l)%nat with true
    by (symmetry; apply Nat.ltb_lt; lia).
  replace (2 <=? _calculate_layout_score a l)%Z with true
    by (symmetry; apply Z.leb_le; exact Hscore).
  exists (if (3 <=? _calculate_layout_score a l)%Z
          then "Perfect match for " else "Good fit for "),
         (if String.eqb (structure a) "comparison"
             && contains "two_column" (get_str (l_structure l))
          then ", Ideal for comparisons" else EmptyString).
  split; [destruct (3 <=? _)%Z; auto|].
  split; [destruct (_ && _); auto|].
  destruct (3 <=? _)%Z; rewrite !str_app_assoc; reflexivity.
Qed.

Lemma chart_support_is_a_good_fit_witness :
  has_charts visualization_analysis = true
  /\ (1 <= chart_placeholders chart_layout)%nat
  /\ (2 <= _calculate_layout_score visualization_analysis chart_layout)%Z.
Proof.
  assert (has_charts visualization_analysis = true) as H1 by reflexivity.
  assert (1 <= chart_placeholders chart_layout)%nat as H2 by (vm_compute; lia).
  split; [exact H1|]. split; [exact H2|].
  exact (proj1 (chart_support_is_a_good_fit visualization_analysis chart_layout H1 H2)).
Defined.

(** X26: when the content is a comparison and the layout's structure tag
    has two_column, the layout's score is at least 1, so the reason built
    from that score is never labelled Partial match, and it ends with the
    comparison clause. *)
Theorem comparison_match_is_never_partial (a : ContentAnalysis) (l : LayoutInfo) :
  structure a = "comparison" ->
  contains "two_column" (get_str (l_structure l)) = true ->
  let score := _calculate_layout_score a l in
  (1 <= score)%Z
  /\ exists label middle : string,
       In label ["Perfect match for "; "Good fit for "; "Suitable for "]
       /\ _generate_recommendation_reason a l score
          = default "Unknown Layout" (l_semantic_name l) +:+ ": " +:+ label
            +:+ content_type a +:+ middle +:+ ", Ideal for comparisons".
Proof.
  intros Hs Ht score. subst score.
  pose proof (score_with_comparison_match a l Hs Ht) as Hscore.
  split; [exact Hscore|].
  rewrite reason_form, Hs, Ht.
  change (("comparison" =? "comparison")%string && true) with true. cbv iota.
  replace (1 <=? _calculate_layout_score a l)%Z with true
    by (symmetry; apply Z.leb_le; exact Hscore).
  exists (if (3 <=? _calculate_layout_score a l)%Z then "Perfect match for "
          else if (2 <=? _calculate_layout_score a l)%Z then "Good fit for "
          else "Suitable for "),
         (if has_charts a && (0 <? chart_placeholders l)%nat
          then ", Supports " +:+ str_of_nat (chart_placeholders l) +:+ " chart(s)"
          else EmptyString).
  split.
  - destruct (3 <=? _)%Z; [simpl; auto|]. destruct (2 <=? _)%Z; simpl; auto.
  - destruct (3 <=? _)%Z; [|destruct (2 <=? _)%Z];
      rewrite !str_app_assoc; reflexivity.
Qed.

Lemma comparison_match_is_never_partial_witness :
  structure (analyze_content comparison_bundle) = "comparison"
  /\ contains "two_column"
       (get_str (l_structure (mkLayout None None None (Some "two_column_equal")
                                None None))) = true
  /\ (1 <= _calculate_layout_score (analyze_content comparison_bundle)
             (mkLayout None None None (Some "two_column_equal") None None))%Z.
Proof.
  assert (structure (analyze_content comparison_bundle) = "comparison") as H1
      by reflexivity.
  assert (contains "two_column"
            (get_str (l_structure (mkLayout None None None (Some "two_column_equal")
                                     None None))) = true) as H2 by reflexivity.
  split; [exact H1|]. split; [exact H2|].
  exact (proj1 (comparison_match_is_never_partial _ _ H1 H2)).
Defined.

(** ** Placeholders as a multiset *)

Lemma filter_length_perm {A : Type} (p : A -> bool) (l l' : list A) :
  Permutation l l' -> length (List.filter p l) = length (List.filter p l').
Proof.
  induction 1 as [|x l l' _ IH|x y l|l l' l'' _ IH1 _ IH2]; simpl.
  - reflexivity.
  - destruct (p x); simpl; now rewrite IH.
  - destruct (p x), (p y); reflexivity.
  - now rewrite IH1.
Qed.

Lemma summary_fields (phs : list (string * Placeholder)) (layout : LayoutInfo) (tag : string) :
  let s := _summarize_placeholders (set_placeholders phs layout) in
  total_count s = length phs
  /\ required_count s
     = length (List.filter (fun p => default false (ph_required p)) (map snd phs))
  /\ by_type s !! tag
     = (if (tagged ph_type "unknown" tag (map snd phs) =? 0)%nat then None
        else Some (tagged ph_type "unknown" tag (map snd phs)))
  /\ by_column s !! tag
     = (if (tagged ph_column "none" tag (map snd phs) =? 0)%nat then None
        else Some (tagged ph_column "none" tag (map snd phs))).
Proof.
  intros s. subst s. unfold _summarize_placeholders, set_placeholders.
  cbn [l_placeholders default].
  set (init := {| total_count := length phs; by_type := ∅;
                  by_column := ∅; required_count := 0 |}).
  destruct (summarize_loop (map snd phs) init) as (H1 & _ & _ & H4 & H5 & H6).
  destruct (summarize_loop_positive (map snd phs) init) as [Pt Pc];
    [intros t c; simpl; rewrite lookup_empty; discriminate
    |intros t c; simpl; rewrite lookup_empty; discriminate|].
  cbv zeta in H1, H4, H5, H6.
  split; [exact H1|]. split; [etransitivity; [exact H4 | reflexivity]|]. split.
  - apply lookup_of_count; [exact Pt|].
    etransitivity; [apply H5|]. simpl. now rewrite lookup_empty.
  - apply lookup_of_count; [exact Pc|].
    etransitivity; [apply H6|]. simpl. now rewrite lookup_empty.
Qed.

Lemma summary_eq (s s' : PlaceholderSummary) :
  total_count s = total_count s' -> by_type s = by_type s' ->
  by_column s = by_column s' -> required_count s = required_count s' -> s = s'.
Proof. destruct s, s'; simpl; intros; subst; reflexivity. Qed.

(** X27: score, reason and summary read the placeholders as a multiset:
    two placeholder dicts holding the same placeholders, in any order and
    under any keys, give a layout the same score, the same reason and the
    same summary. *)
Theorem placeholders_count_as_multiset
    (analysis : ContentAnalysis) (layout : LayoutInfo)
    (phs phs' : list (string * Placeholder)) :
  Permutation (map snd phs) (map snd phs') ->
  _calculate_layout_score analysis (set_placeholders phs layout)
  = _calculate_layout_score analysis (set_placeholders phs' layout)
  /\ (forall score : Z,
         _generate_recommendation_reason analysis (set_placeholders phs layout) score
         = _generate_recommendation_reason analysis (set_placeholders phs' layout) score)
  /\ _summarize_placeholders (set_placeholders phs layout)
     = _summarize_placeholders (set_placeholders phs' layout).
Proof.
  intros HP.
  assert (forall types,
             count_type types (set_placeholders phs layout)
             = count_type types (set_placeholders phs' layout)) as Hcount.
  { intros types. unfold count_type, placeholder_values, set_placeholders.
    cbn [l_placeholders default]. now apply filter_length_perm. }
  split; [|split].
  - unfold _calculate_layout_score, chart_placeholders, text_placeholders,
      normalized_use_cases.
    rewrite !Hcount. reflexivity.
  - intros score. unfold _generate_recommendation_reason, chart_placeholders.
    rewrite !Hcount. reflexivity.
  - assert (length phs = length phs') as Hlen.
    { rewrite <- (length_map snd phs), <- (length_map snd phs').
      now apply Permutation_length. }
    apply summary_eq.
    + destruct (summary_fields phs layout EmptyString) as (-> & _).
      destruct (summary_fields phs' layout EmptyString) as (-> & _). exact Hlen.
    + apply map_eq. intros tag.
      destruct (summary_fields phs layout tag) as (_ & _ & -> & _).
      destruct (summary_fields phs' layout tag) as (_ & _ & -> & _).
      unfold tagged. now rewrite (filter_length_perm _ _ _ HP).
    + apply map_eq. intros tag.
      destruct (summary_fields phs layout tag) as (_ & _ & _ & ->).
      destruct (summary_fields phs' layout tag) as (_ & _ & _ & ->).
      unfold tagged. now rewrite (filter_length_perm _ _ _ HP).
    + destruct (summary_fields phs layout EmptyString) as (_ & -> & _).
      destruct (summary_fields phs' layout EmptyString) as (_ & -> & _).
      now apply filter_length_perm.
Qed.

Lemma placeholders_count_as_multiset_witness :
  Permutation (map snd [("chart_main", chart_ph); ("notes", body_ph)])
              (map snd [("text", body_ph); ("figure", chart_ph)])
  /\ _summarize_placeholders
       (set_placeholders [("chart_main", chart_ph); ("notes", body_ph)] chart_layout)
     = _summarize_placeholders
         (set_placeholders [("text", body_ph); ("figure", chart_ph)] chart_layout).
Proof.
  assert (Permutation (map snd [("chart_main", chart_ph); ("notes", body_ph)])
                      (map snd [("text", body_ph); ("figure", chart_ph)])) as HP
      by apply perm_swap.
  split; [exact HP|].
  exact (proj2 (proj2 (placeholders_count_as_multiset visualization_analysis
                         chart_layout _ _ HP))).
Defined.

(** ** A bare string and a mapping of one string *)

Lemma prefix_trailing_space (k a : string) :
  ends_in_letter k = true ->
  String.prefix k (a +:+ " ") = String.prefix k a.
Proof.
  revert a. induction k as [|x k IH]; intros a Hk; [discriminate|].
  destruct k as [|y k].
  - simpl in Hk. apply negb_true_iff in Hk.
    destruct a as [|c a]; simpl.
    + destruct (ascii_dec x " ") as [->|_]; [discriminate Hk | reflexivity].
    + destruct (ascii_dec x c); [now destruct (a +:+ " "), a | reflexivity].
  - destruct a as [|c a].
    + simpl. destruct (ascii_dec x " "); reflexivity.
    + change (String c a +:+ " ") with (String c (a +:+ " ")).
      cbn [String.prefix]. destruct (ascii_dec x c); [|reflexivity].
      apply IH. exact Hk.
Qed.

Lemma contains_trailing_space (k a : string) :
  ends_in_letter k = true ->
  contains k (a +:+ " ") = contains k a.
Proof.
  intros Hk. induction a as [|c a IH].
  - change (EmptyString +:+ " ") with (String " " EmptyString).
    rewrite (contains_eq k (String " " EmptyString)), !(contains_eq k EmptyString).
    change (String " " EmptyString) with (EmptyString +:+ " ").
    rewrite (prefix_trailing_space k EmptyString Hk).
    destruct (String.prefix k EmptyString); reflexivity.
  - change (String c a +:+ " ") with (String c (a +:+ " ")).
    rewrite (contains_eq k (String c (a +:+ " "))), (contains_eq k (String c a)).
    change (String c (a +:+ " ")) with (String c a +:+ " ").
    now rewrite (prefix_trailing_space k (String c a) Hk), IH.
Qed.

Lemma any_in_trailing_space (keywords : list string) (a : string) :
  forallb ends_in_letter keywords = true ->
  any_in keywords (a +:+ " ") = any_in keywords a.
Proof.
  unfold any_in. induction keywords as [|k ks IH]; [reflexivity|].
  cbn [existsb forallb]. rewrite andb_true_iff. intros [Hk Hks].
  now rewrite (contains_trailing_space k a Hk), (IH Hks).
Qed.

Lemma count_char_trailing_space (s : string) :
  count_char "." (s +:+ " ") = count_char "." s.
Proof. induction s as [|c s IH]; [reflexivity | simpl; now rewrite IH]. Qed.

Lemma text_structure_trailing_space (s : string) :
  text_structure (s +:+ " ") = text_structure s.
Proof.
  unfold text_structure, split_on.
  rewrite !split_on_from_length, count_char_trailing_space, lower_app.
  change (lower " ") with " ".
  now rewrite !any_in_trailing_space by reflexivity.
Qed.

(** X28: a text under one key that is not a comparison key is analysed
    exactly like the bare text: the space that the mapping puts behind the
    value changes no field of the analysis. *)
Theorem single_string_item_like_bare_string (key s : string) :
  key_in comparison_keys key = false ->
  analyze_content (PDict [(key, PStr s)]) = analyze_content (PStr s).
Proof.
  intros Hkey. unfold analyze_content.
  change (all_text (PDict [(key, PStr s)])) with (s +:+ " ").
  change (all_text (PStr s)) with s.
  assert (_analyze_structure (PDict [(key, PStr s)]) (s +:+ " ")
          = _analyze_structure (PStr s) s) as ->.
  { unfold _analyze_structure. cbn [is_dict dict_items map fst snd existsb is_list andb].
    rewrite Hkey. cbn [orb]. apply text_structure_trailing_space. }
  rewrite lower_app. change (lower " ") with " ".
  rewrite !any_in_trailing_space by reflexivity.
  change (s +:+ " ") with (s +:+ String " " EmptyString).
  rewrite word_count_across_space, data_points_across_space.
  change (word_count EmptyString) with 0%nat.
  change (_count_data_points EmptyString) with 0%nat.
  rewrite !Nat.add_0_r.
  assert (_extract_metrics (s +:+ String " " EmptyString) = _extract_metrics s) as ->.
  { unfold _extract_metrics. apply filter_ext_in. intros k Hin.
    rewrite lower_app. change (lower (String " " EmptyString)) with " ".
    apply contains_trailing_space.
    unfold metric_keywords in Hin. simpl in Hin.
    repeat (destruct Hin as [<-|Hin]; [reflexivity|]). destruct Hin. }
  reflexivity.
Qed.

Lemma single_string_item_like_bare_string_witness :
  key_in comparison_keys "title" = false
  /\ analyze_content (PDict [("title", PStr "Revenue grew 15% to $45M")])
     = analyze_content (PStr "Revenue grew 15% to $45M").
Proof.
  assert (key_in comparison_keys "title" = false) as H by reflexivity.
  split; [exact H|].
  exact (single_string_item_like_bare_string "title" "Revenue grew 15% to $45M" H).
Defined.
